(** * rotki frontend: task manager, API client and balance store actions

    A shallow embedding of
    - [frontend/app/src/services/rotkehlchen-api.ts]
      ([RotkehlchenApi.queryTaskResult] and the [TaskManager] class that
      follows it in the same file), and
    - [frontend/app/src/store/balances/actions.ts]
      ([removeTag], [removeTags] and the account actions).

    JavaScript objects used as dictionaries are string-keyed: the handler
    table is a [gmap string Handler], the task registry is the list of own
    enumerable properties of [state.tasks.tasks] in [for ... in] order.
    Promises are modelled by their settlement: an asynchronous call is given
    the outcome it settles with, and the callbacks chained on it are run on
    that outcome. *)

From stdpp Require Import gmap strings list pretty.

Open Scope string_scope.
Open Scope list_scope.

(** ** JavaScript values shared by the modules *)

(** What a [throw] carries.  [TaskNotFoundError] is the subclass of [Error]
    imported from [@/services/types-api]; [AxiosError] is what axios rejects
    with when [validateStatus] refuses the status or the request fails. *)
Inductive JsError : Type :=
| Error (message : string)
| TaskNotFoundError (message : string)
| AxiosError (message : string).

(** [e.message] *)
Definition error_message (e : JsError) : string :=
  match e with
  | Error m | TaskNotFoundError m | AxiosError m => m
  end.

(** [e instanceof TaskNotFoundError] *)
Definition instanceof_TaskNotFoundError (e : JsError) : bool :=
  match e with
  | TaskNotFoundError _ => true
  | _ => false
  end.

(** Settlement of a promise, or completion of a call that may throw. *)
Inductive Outcome (A : Type) : Type :=
| Resolved (value : A)
| Rejected (reason : JsError).
Arguments Resolved {A} value.
Arguments Rejected {A} reason.

(** A JSON payload: the literal [{}] of the synthetic results, or data
    received from the backend. *)
Inductive Payload : Type :=
| EmptyObject
| Data (json : string).

(** [ActionResult<T>]: the envelope [{ result, message }]. *)
Record ActionResult : Type := mkActionResult {
  result : Payload;
  message : string
}.

(** [Severity] of [@/store/notifications/consts]. *)
Inductive Severity : Type := INFO | WARNING | ERROR.

Record Notification : Type := mkNotification {
  n_message : string;
  n_title : string;
  n_severity : Severity;
  n_display : bool
}.

(** A JavaScript number used as a task identifier, or [null]/[undefined]
    ([None]): [task.id == null] holds for both. *)
Definition TaskId : Type := option Z.

(** [String(id)], as a template literal or a property key renders it. *)
Definition id_key (id : TaskId) : string :=
  match id with
  | Some n => pretty n
  | None => "null"
  end.

(** [TaskType] is a string enum ([@/model/task-type]); at run time a member
    is its string value. *)
Definition TaskType : Type := string.

(** [TaskMeta] and the fields of its extensions that the code reads. *)
Record TaskMeta : Type := mkTaskMeta {
  title : string;
  description : option string;
  ignoreResult : option bool;
  numericKeys : option (list string);
  blockchain : option string
}.

(** [Task<TaskMeta>] *)
Record Task : Type := mkTask {
  task_id : TaskId;
  task_type : TaskType;
  task_meta : TaskMeta
}.

(** Interpolation of an optional string in a template literal. *)
Definition show_optional (s : option string) : string :=
  match s with
  | Some v => v
  | None => "undefined"
  end.

(** Truthiness of an optional boolean field. *)
Definition truthy (b : option bool) : bool :=
  match b with
  | Some true => true
  | _ => false
  end.

(** ** The task manager ([class TaskManager]) *)

Module TaskManager.

(** A registered callback [(result, meta) => void].  Only what the manager
    can observe of a call is modelled: whether it returns or throws.  What a
    callback does to the store on its own ([onTradeHistory] notifies and
    commits a report) is outside the model: the notification log holds
    the manager's own notifications only.  The name identifies the callback
    in the invocation log. *)
Record Handler : Type := mkHandler {
  handler_name : string;
  handler_body : ActionResult → TaskMeta → option JsError
}.

(** One call [handler(result, meta)]. *)
Record Invocation : Type := mkInvocation {
  inv_handler : Handler;
  inv_result : ActionResult;
  inv_meta : TaskMeta
}.

(** [store.state.tasks] together with the manager's private [handler]
    table, and the two observable logs: notifications the manager emits
    through [notify] and handler calls, both oldest first.  The manager starts with
    [onTradeHistory] registered under [TaskType.TRADE_HISTORY]; the
    properties below hold for every table. *)
Record State : Type := mkState {
  tasks : list (string * Task);
  locked : list TaskId;
  handler : gmap string Handler;
  notifications : list Notification;
  invocations : list Invocation
}.

Definition with_tasks (ts : list (string * Task)) (st : State) : State :=
  mkState ts (locked st) (handler st) (notifications st) (invocations st).

Definition with_locked (l : list TaskId) (st : State) : State :=
  mkState (tasks st) l (handler st) (notifications st) (invocations st).

Definition with_handler (h : gmap string Handler) (st : State) : State :=
  mkState (tasks st) (locked st) h (notifications st) (invocations st).

(** Modelled from the spec: [notify] of [@/store/notifications/utils] is
    not under src; it emits a user-visible notification.  The optional
    fourth argument is [false] when omitted. *)
Definition notify (msg ttl : string) (sev : Severity) (display : bool)
    (st : State) : State :=
  mkState (tasks st) (locked st) (handler st)
    (notifications st ++ [mkNotification msg ttl sev display])
    (invocations st).

(** Modelled from the spec: the mutation [tasks/lock] is not under src;
    the registry state is [{ tasks: mapping<id, Task>, locked: set<id> }]
    and a task is locked while its poll is outstanding. *)
Definition commit_lock (id : TaskId) (st : State) : State :=
  with_locked (locked st ++ [id]) st.

(** Modelled from the spec: the mutation [tasks/unlock] is not under src;
    it takes the id out of the locked set. *)
Definition commit_unlock (id : TaskId) (st : State) : State :=
  with_locked (filter (λ x, x ≠ id) (locked st)) st.

(** Modelled from the spec: the mutation [tasks/remove] is not under src;
    it deletes the registry entry of the id (property [String(id)]). *)
Definition commit_remove (id : TaskId) (st : State) : State :=
  with_tasks (filter (λ e, e.1 ≠ id_key id) (tasks st)) st.

Definition record_call (h : Handler) (r : ActionResult) (m : TaskMeta)
    (st : State) : State :=
  mkState (tasks st) (locked st) (handler st) (notifications st)
    (invocations st ++ [mkInvocation h r m]).

(** [registerHandler(task, handlerImpl, taskId?)]:
    [const identifier = taskId ? `${task}-${taskId}` : task]. *)
Definition identifier (task : TaskType) (taskId : option string) : string :=
  match taskId with
  | Some s => if decide (s = "") then task else task +:+ "-" +:+ s
  | None => task
  end.

Definition registerHandler (task : TaskType) (handlerImpl : Handler)
    (taskId : option string) (st : State) : State :=
  with_handler (<[identifier task taskId := handlerImpl]> (handler st)) st.

(** [unregisterHandler(task, taskId?)] *)
Definition unregisterHandler (task : TaskType) (taskId : option string)
    (st : State) : State :=
  with_handler (delete (identifier task taskId) (handler st)) st.

(** [this.handler[task.type] ?? this.handler[`${task.type}-${task.id}`]] *)
Definition lookup_handler (table : gmap string Handler) (task : Task)
    : option Handler :=
  match table !! task_type task with
  | Some h => Some h
  | None => table !! (task_type task +:+ "-" +:+ id_key (task_id task))
  end.

(** [`Task ${task.type} -> ${task.meta.description} had a null identifier`] *)
Definition null_identifier_message (task : Task) : string :=
  "Task " +:+ task_type task +:+ " -> " +:+
  show_optional (description (task_meta task)) +:+ " had a null identifier".

(** [`No handler found for task '${task.type}' with id ${task.id}`] *)
Definition no_handler_message (task : Task) : string :=
  "No handler found for task '" +:+ task_type task +:+ "' with id " +:+
  id_key (task_id task).

(** The notifications the two diagnostics put in the store. *)
Definition null_identifier_notice (task : Task) : Notification :=
  mkNotification (null_identifier_message task) "Invalid task found"
    WARNING false.


Section WithI18n.

(** [i18n.tc(key, 0, params)]: the locale messages are not under src, so
    the translation function is a parameter. *)
Variable tc : string → list (string * string) → string.

(** The [{ result: {}, message: ... }] built in [monitor]'s [catch]. *)
Definition not_found_result (task : Task) : ActionResult :=
  mkActionResult EmptyObject
    (tc "task_manager.not_found"
       [("taskId", id_key (task_id task));
        ("title", title (task_meta task))]).

(** The [{ result: {}, message: ... }] built in [handleResult]'s
    [catch]. *)
Definition error_result (task : Task) (e : JsError) : ActionResult :=
  mkActionResult EmptyObject
    (tc "task_manager.error"
       [("taskId", id_key (task_id task));
        ("title", title (task_meta task));
        ("error", error_message e)]).

(** [handleResult(result, task)].  The second component is the exception
    that leaves the method, if any. *)
Definition handleResult (res : option ActionResult) (task : Task)
    (st : State) : State * option JsError :=
  if truthy (ignoreResult (task_meta task)) then
    (commit_remove (task_id task) st, None)
  else
    match res with
    | None => (st, None)
    | Some r =>
      match lookup_handler (handler st) task with
      | None =>
        let st1 := notify (no_handler_message task) "Tasks" INFO false st in
        (commit_remove (task_id task) st1, None)
      | Some h =>
        let st1 := record_call h r (task_meta task) st in
        match handler_body h r (task_meta task) with
        | None => (commit_remove (task_id task) st1, None)
        | Some e =>
          let failure := error_result task e in
          let st2 := record_call h failure (task_meta task) st1 in
          match handler_body h failure (task_meta task) with
          | None => (commit_remove (task_id task) st2, None)
          | Some e2 => (st2, Some e2)
          end
        end
      end
    end.

(** The body of [monitor]'s loop over the own properties of the registry.
    [locked0] is the array bound by
    [const { tasks: taskMap, locked } = taskState] before the loop, in which
    [locked.indexOf(task.id)] searches.  The second component lists the
    tasks for which [api.queryTaskResult(task.id, task.meta.numericKeys)]
    was issued, in order. *)
Fixpoint monitor_loop (locked0 : list TaskId)
    (entries : list (string * Task)) (st : State) : State * list Task :=
  match entries with
  | [] => (st, [])
  | (_, task) :: rest =>
    match task_id task with
    | None =>
      monitor_loop locked0 rest
        (notify (null_identifier_message task) "Invalid task found" WARNING
           false st)
    | Some n =>
      if decide (Some n ∈ locked0) then monitor_loop locked0 rest st
      else
        let '(st', polls) :=
          monitor_loop locked0 rest (commit_lock (Some n) st) in
        (st', task :: polls)
    end
  end.

(** [monitor()] up to the point where it returns: the polls it issued are
    still outstanding. *)
Definition monitor (st : State) : State * list Task :=
  monitor_loop (locked st) (tasks st) st.

(** The [.catch(e => ...)] callback of a poll. *)
Definition on_rejected (task : Task) (e : JsError) (st : State)
    : State * option JsError :=
  let st1 := commit_unlock (task_id task) st in
  if instanceof_TaskNotFoundError e then
    handleResult (Some (not_found_result task)) task
      (commit_remove (task_id task) st1)
  else (st1, None).

(** Settlement of one poll:
    [queryTaskResult(...).then(result => this.handleResult(result, task))
     .catch(e => ...)].
    An exception thrown by the [then] callback reaches the [catch]
    callback; one thrown by the [catch] callback is the outcome of the
    chain. *)
Definition settle (task : Task) (reply : Outcome ActionResult)
    (st : State) : State * option JsError :=
  match reply with
  | Resolved r =>
    match handleResult (Some r) task st with
    | (st1, Some e) => on_rejected task e st1
    | (st1, None) => (st1, None)
    end
  | Rejected e => on_rejected task e st
  end.

(** Settlement of several polls, one after the other. *)
Fixpoint settle_all (events : list (Task * Outcome ActionResult))
    (st : State) : State :=
  match events with
  | [] => st
  | (task, reply) :: rest => settle_all rest (settle task reply st).1
  end.

End WithI18n.

(** The tasks a pass of [monitor] polls: those with an identifier that is
    not in the locked array read at the start of the pass. *)
Definition pollable (locked0 : list TaskId) (task : Task) : Prop :=
  is_Some (task_id task) ∧ task_id task ∉ locked0.

Global Instance pollable_dec locked0 task : Decision (pollable locked0 task).
Proof. unfold pollable. apply _. Defined.

(** Handler calls and notifications made between two states. *)
Definition calls_since (st st' : State) : list Invocation :=
  drop (length (invocations st)) (invocations st').

Definition notes_since (st st' : State) : list Notification :=
  drop (length (notifications st)) (notifications st').

(** No registry entry is left under the identifier. *)
Definition removed (id : TaskId) (st : State) : Prop :=
  Forall (λ e, e.1 ≠ id_key id) (tasks st).

(** A registry as the store builds it: one property per task, named by the
    task's identifier. *)
Definition registry_wf (entries : list (string * Task)) : Prop :=
  NoDup entries.*1 ∧ Forall (λ e, e.1 = id_key (task_id e.2)) entries.

End TaskManager.

(** ** Localized messages ([i18n.tc]) *)

Module I18n.

(** Modelled from the spec: the locale messages of [@/i18n] are not under
    src.  A message is a template, literal text with named placeholders
    ([{taskId}]), as in "the 'not found' template containing id 9". *)
Inductive Segment : Type :=
  | Text (s : string)
  | Param (name : string).

(** Modelled from the spec: the locale gives the template of each key. *)
Definition Locale : Type := string → list Segment.

(** The value passed for a placeholder, the first under its name; the empty
    text when there is none. *)
Fixpoint param_value (params : list (string * string)) (name : string)
    : string :=
  match params with
  | [] => ""
  | (k, v) :: rest => if decide (k = name) then v else param_value rest name
  end.

Definition render (params : list (string * string)) (seg : Segment)
    : string :=
  match seg with
  | Text s => s
  | Param name => param_value params name
  end.

(** Modelled from the spec: [i18n.tc(key, 0, params)] is the template of
    the key with each placeholder replaced by the value passed for it. *)
Definition tc (locale : Locale) (key : string)
    (params : list (string * string)) : string :=
  foldr (λ seg acc, render params seg +:+ acc) "" (locale key).

End I18n.

(** ** The API client ([RotkehlchenApi.queryTaskResult]) *)

(** Promise chaining: [p.then(f)] runs [f] on the value [p] resolves with
    and passes a rejection on. *)
Global Instance Outcome_ret : MRet Outcome := @Resolved.

Global Instance Outcome_bind : MBind Outcome := λ A B f p,
  match p with
  | Resolved v => f v
  | Rejected e => Rejected e
  end.

Module Api.

(** [TaskResult<ActionResult<T>>] of [@/typing/types]: what the polling
    envelope holds; [outcome] is [null] while the task is pending. *)
Record TaskResult : Type := mkTaskResult {
  outcome : option ActionResult;
  status : string
}.

(** The parsed body of the polling response,
    [ActionResult<TaskResult<ActionResult<T>>>]. *)
Record TaskEnvelope : Type := mkTaskEnvelope {
  env_result : option TaskResult;
  env_message : string
}.

(** [AxiosResponse]: the HTTP status and the transformed body. *)
Record AxiosResponse : Type := mkAxiosResponse {
  response_status : Z;
  response_data : TaskEnvelope
}.

(** What the transport delivers for a request: no response at all, or a
    status with the raw body. *)
Inductive HttpReply : Type :=
| NoResponse (reason : string)
| Response (status : Z) (body : string).

(** [axios.get(url, { validateStatus, transformResponse })]: the promise
    resolves with the response when [validateStatus] accepts its status and
    rejects otherwise, as it does when no response arrives. *)
Definition axios_get (validateStatus : Z → bool)
    (transformResponse : string → TaskEnvelope) (reply : HttpReply)
    : Outcome AxiosResponse :=
  match reply with
  | NoResponse reason => Rejected (AxiosError reason)
  | Response st body =>
    if validateStatus st then
      Resolved (mkAxiosResponse st (transformResponse body))
    else
      Rejected (AxiosError ("Request failed with status code " +:+ pretty st))
  end.

Section WithHelpers.

(** [validTaskStatus] and [handleResponse] of [@/services/utils],
    [setupTransformer] of [@/services/axios-tranformers] and the client's
    default [transformResponse] are not under src: they are parameters. *)
Variable validTaskStatus : Z → bool.
Variable handleResponse : AxiosResponse → Outcome TaskResult.
Variable setupTransformer : list string → string → TaskEnvelope.
Variable defaultTransformResponse : string → TaskEnvelope.

(** [numericKeys ? setupTransformer(numericKeys)
                 : this.axios.defaults.transformResponse] *)
Definition transformer (numericKeys : option (list string))
    : string → TaskEnvelope :=
  match numericKeys with
  | Some keys => setupTransformer keys
  | None => defaultTransformResponse
  end.

(** [queryTaskResult(id, numericKeys)], given what the transport delivers
    for [GET /tasks/${id}]. *)
Definition queryTaskResult (id : Z) (numericKeys : option (list string))
    (reply : HttpReply) : Outcome ActionResult :=
  response ← axios_get validTaskStatus (transformer numericKeys) reply;
  response ← (if decide (response_status response = 404%Z) then
                Rejected (TaskNotFoundError
                            ("Task with id " +:+ pretty id +:+ " not found"))
              else Resolved response);
  value ← handleResponse response;
  match outcome value with
  | Some o => Resolved o
  | None => Rejected (Error "No result")
  end.

End WithHelpers.

End Api.

(** ** The balance store ([store/balances/actions.ts]) *)

Module Balances.

(** [Blockchain] of [@/typing/types], with its members [ETH] and [BTC]. *)
Inductive Blockchain : Type := ETH | BTC.

Global Instance Blockchain_eq_dec : EqDecision Blockchain.
Proof. solve_decision. Defined.

Definition show_blockchain (b : Blockchain) : string :=
  match b with
  | ETH => "ETH"
  | BTC => "BTC"
  end.

(** [GeneralAccountData] *)
Record GeneralAccountData : Type := mkGeneralAccountData {
  ga_address : string;
  ga_label : string;
  ga_tags : option (list string)
}.

(** [XpubAccountData] *)
Record XpubAccountData : Type := mkXpubAccountData {
  xp_xpub : string;
  xp_derivationPath : string;
  xp_label : string;
  xp_tags : option (list string);
  xp_addresses : option (list GeneralAccountData)
}.

(** [BtcAccountData] *)
Record BtcAccountData : Type := mkBtcAccountData {
  standalone : list GeneralAccountData;
  xpubs : list XpubAccountData
}.

(** The fields of [BalanceState] that the modelled actions read or
    commit. *)
Record BalanceState : Type := mkBalanceState {
  eth : Payload;
  btc : Payload;
  totals : Payload;
  ethAccounts : list GeneralAccountData;
  btcAccounts : BtcAccountData
}.

(** [T extends { tags: string[] | null }]; [update_tags] is the spread
    [{ ...account, tags }]. *)
Class HasTags (T : Type) : Type := {
  tags_of : T → option (list string);
  update_tags : list string → T → T
}.

Global Instance GeneralAccountData_tags : HasTags GeneralAccountData := {
  tags_of := ga_tags;
  update_tags tags a :=
    mkGeneralAccountData (ga_address a) (ga_label a) (Some tags)
}.

(** [tags.indexOf(tagName)], counting from [i]; [-1] when absent. *)
Fixpoint indexOf_from (i : Z) (tags : list string) (tagName : string) : Z :=
  match tags with
  | [] => (-1)%Z
  | t :: rest =>
    if decide (t = tagName) then i else indexOf_from (i + 1)%Z rest tagName
  end.

Definition indexOf (tags : list string) (tagName : string) : Z :=
  indexOf_from 0%Z tags tagName.

(** [tags.slice(from)] and [tags.slice(0, to)] for non-negative bounds. *)
Definition slice_from (from : Z) (tags : list string) : list string :=
  drop (Z.to_nat from) tags.

Definition slice_to (to : Z) (tags : list string) : list string :=
  take (Z.to_nat to) tags.

(** [function removeTag(tags, tagName)] *)
Definition removeTag (tags : option (list string)) (tagName : string)
    : option (list string) :=
  match tags with
  | None => None
  | Some tags =>
    let index := indexOf tags tagName in
    if decide (index < 0)%Z then None
    else Some (slice_to index tags ++ slice_from (index + 1)%Z tags)
  end.

(** An account carries a tag when its tag list is not [null] and holds
    it. *)
Definition carries (tags : option (list string)) (tagName : string) : Prop :=
  ∃ l, tags = Some l ∧ tagName ∈ l.

(** The body of the loop of [removeTags] at index [i]. *)
Definition removeTags_step `{HasTags T} (tagName : string)
    (accounts : list T) (i : nat) : list T :=
  match accounts !! i with
  | None => accounts
  | Some account =>
    match removeTag (tags_of account) tagName with
    | None => accounts
    | Some tags => <[i := update_tags tags account]> accounts
    end
  end.

(** What the loop of [removeTags] leaves in the place of one account. *)
Definition removeTags_account `{HasTags T} (tagName : string) (account : T)
    : T :=
  match removeTag (tags_of account) tagName with
  | None => account
  | Some tags => update_tags tags account
  end.

(** [function removeTags(data, tagName)]: the loop runs over the indices of
    the copy [accounts = [...data]]. *)
Definition removeTags `{HasTags T} (data : list T) (tagName : string)
    : list T :=
  foldl (removeTags_step tagName) data (seq 0 (length data)).

(** Modelled from the spec: the mutations [ethAccounts] and [btcAccounts]
    are not under src; an action commits its result into the domain
    state. *)
Definition commit_ethAccounts (accounts : list GeneralAccountData)
    (state : BalanceState) : BalanceState :=
  mkBalanceState (eth state) (btc state) (totals state) accounts
    (btcAccounts state).

Definition commit_btcAccounts (accounts : BtcAccountData)
    (state : BalanceState) : BalanceState :=
  mkBalanceState (eth state) (btc state) (totals state) (ethAccounts state)
    accounts.

(** The object pushed for one xpub by the action [removeTag]. *)
Definition removeTag_xpub (tagName : string) (xpub : XpubAccountData)
    : XpubAccountData :=
  mkXpubAccountData (xp_xpub xpub) (xp_derivationPath xpub) (xp_label xpub)
    (removeTag (xp_tags xpub) tagName)
    (match xp_addresses xpub with
     | Some addresses => Some (removeTags addresses tagName)
     | None => None
     end).

Module actions.

(** [BlockchainAccountPayload] *)
Record BlockchainAccountPayload : Type := mkBlockchainAccountPayload {
  p_address : string;
  p_label : option string;
  p_tags : list string;
  p_blockchain : Blockchain
}.

(** [BlockchainBalances]: [{ perAccount: { ETH, BTC }, totals }]. *)
Record BlockchainBalances : Type := mkBlockchainBalances {
  perAccount_ETH : option Payload;
  perAccount_BTC : option Payload;
  bb_totals : Payload
}.

(** The part of the root store the account actions act on: the balances
    module, the defi module, the task registry, the notifications, and the
    actions dispatched without [await]. *)
Record RootState : Type := mkRootState {
  balances : BalanceState;
  defi : Payload;
  registry : list Task;
  notices : list Notification;
  spawned : list string
}.

(** How every asynchronous call awaited by the account actions settles:
    the API client's methods, [taskCompletion] of [@/model/task] and the
    root action [resetDefiStatus]. *)
Record Settlements : Type := mkSettlements {
  addBlockchainAccount : BlockchainAccountPayload → Outcome Z;
  removeBlockchainAccount : Blockchain → string → Outcome Z;
  editEthAccount :
    BlockchainAccountPayload → Outcome (list GeneralAccountData);
  editBtcAccount : BlockchainAccountPayload → Outcome BtcAccountData;
  taskCompletion : TaskType → option string → Outcome BlockchainBalances;
  resetDefiStatus : Outcome unit
}.

(** An [async] action body, run on its own: it transforms the store and
    either completes or throws. *)
Definition Action (A : Type) : Type := RootState → RootState * Outcome A.

Global Instance Action_ret : MRet Action := λ A x w, (w, Resolved x).

Global Instance Action_bind : MBind Action := λ A B f m w,
  match m w with
  | (w1, Resolved v) => f v w1
  | (w1, Rejected e) => (w1, Rejected e)
  end.

(** [await p] for a promise that settles as [p]. *)
Definition await {A : Type} (p : Outcome A) : Action A := λ w, (w, p).

(** [try { body } catch (e) { handler }] *)
Definition try_catch {A : Type} (body : Action A)
    (handler : JsError → Action A) : Action A := λ w,
  match body w with
  | (w1, Rejected e) => handler e w1
  | (w1, Resolved v) => (w1, Resolved v)
  end.

Definition with_balances (b : BalanceState) (w : RootState) : RootState :=
  mkRootState b (defi w) (registry w) (notices w) (spawned w).

(** [commit(mutation, payload)] on the balances module. *)
Definition commit (mutation : BalanceState → BalanceState) : Action unit :=
  λ w, (with_balances (mutation (balances w)) w, Resolved tt).

(** Modelled from the spec: the mutations [updateEth], [updateBtc] and
    [updateTotals] are not under src; an action commits the result into the
    domain state. *)
Definition commit_updateEth (v : Payload) (state : BalanceState)
    : BalanceState :=
  mkBalanceState v (btc state) (totals state) (ethAccounts state)
    (btcAccounts state).

Definition commit_updateBtc (v : Payload) (state : BalanceState)
    : BalanceState :=
  mkBalanceState (eth state) v (totals state) (ethAccounts state)
    (btcAccounts state).

Definition commit_updateTotals (v : Payload) (state : BalanceState)
    : BalanceState :=
  mkBalanceState (eth state) (btc state) v (ethAccounts state)
    (btcAccounts state).

(** Modelled from the spec: the root mutations [tasks/add] and [defi/reset]
    are not under src; the first adds the task to the registry, the second
    puts the defi module back to its initial state. *)
Definition commit_tasks_add (task : Task) : Action unit := λ w,
  (mkRootState (balances w) (defi w) (registry w ++ [task]) (notices w)
     (spawned w),
   Resolved tt).

Definition commit_defi_reset : Action unit := λ w,
  (mkRootState (balances w) EmptyObject (registry w) (notices w) (spawned w),
   Resolved tt).

(** [dispatch(name).then()]: the action is started and not awaited. *)
Definition dispatch_detached (name : string) : Action unit := λ w,
  (mkRootState (balances w) (defi w) (registry w) (notices w)
     (spawned w ++ [name]),
   Resolved tt).

(** Modelled from the spec: [notify] of [@/store/notifications/utils] is
    not under src; it emits a user-visible notification. *)
Definition notify (msg ttl : string) (sev : Severity) (display : bool)
    : Action unit := λ w,
  (mkRootState (balances w) (defi w) (registry w)
     (notices w ++ [mkNotification msg ttl sev display]) (spawned w),
   Resolved tt).

(** Members of [TaskType] used by the account actions.  Their string values
    are declared in [@/model/task-type], which is not under src; the
    lower-case member names stand for them. *)
Definition ADD_ACCOUNT : TaskType := "add_account".
Definition REMOVE_ACCOUNT : TaskType := "remove_account".

(** Modelled from the spec: [createTask] of [@/model/task] is not under
    src; a task is [{ id, type, meta }]. *)
Definition createTask (id : Z) (type : TaskType) (meta : TaskMeta) : Task :=
  mkTask (Some id) type meta.

Definition when (b : bool) (body : Action unit) : Action unit :=
  if b then body else mret tt.

Definition is_chain (chain : option Blockchain) (b : Blockchain) : bool :=
  match chain with
  | None => true
  | Some c => bool_decide (c = b)
  end.

Definition or_empty (v : option Payload) : Payload := default EmptyObject v.

Section WithI18n.

(** [i18n.tc(key, 0, params)] and [blockchainBalanceKeys] of
    [@/services/balances/consts] are not under src: parameters. *)
Variable tc : string → list (string * string) → string.
Variable blockchainBalanceKeys : list string.
Variable api : Settlements.

(** [actions.updateBalances({ commit, dispatch }, { chain, balances })] *)
Definition updateBalances (chain : option Blockchain)
    (balances : BlockchainBalances) : Action unit :=
  when (is_chain chain ETH)
    (commit (commit_updateEth (or_empty (perAccount_ETH balances))));;
  when (is_chain chain BTC)
    (commit (commit_updateBtc (or_empty (perAccount_BTC balances))));;
  commit (commit_updateTotals (bb_totals balances));;
  dispatch_detached "accounts".

(** The statements of the [try] block shared by [addAccount] and
    [removeAccount] once the task identifier is known. *)
Definition track_account_task (taskType : TaskType) (keys : string)
    (payload : BlockchainAccountPayload) (taskId : Z) : Action unit :=
  let blockchain := p_blockchain payload in
  let task :=
    createTask taskId taskType
      (mkTaskMeta
         (tc (keys +:+ ".task.title")
            [("blockchain", show_blockchain blockchain)])
         (Some (tc (keys +:+ ".task.description")
                  [("address", p_address payload)]))
         None (Some blockchainBalanceKeys)
         (Some (show_blockchain blockchain))) in
  commit_tasks_add task;;
  result ← await (taskCompletion api taskType None);
  updateBalances (Some blockchain) result;;
  commit_defi_reset;;
  await (resetDefiStatus api).

(** The [catch] block shared by [addAccount] and [removeAccount]. *)
Definition notify_account_error (keys : string)
    (payload : BlockchainAccountPayload) (e : JsError) : Action unit :=
  let ttl :=
    tc (keys +:+ ".error.title")
      [("address", p_address payload);
       ("blockchain", show_blockchain (p_blockchain payload))] in
  let description :=
    tc (keys +:+ ".error.description") [("error", error_message e)] in
  notify description ttl ERROR true.

(** The notification the [catch] block emits. *)
Definition account_error_notice (keys : string)
    (payload : BlockchainAccountPayload) (e : JsError) : Notification :=
  mkNotification
    (tc (keys +:+ ".error.description") [("error", error_message e)])
    (tc (keys +:+ ".error.title")
       [("address", p_address payload);
        ("blockchain", show_blockchain (p_blockchain payload))])
    ERROR true.

(** [actions.addAccount({ commit, dispatch }, payload)] *)
Definition addAccount (payload : BlockchainAccountPayload) : Action unit :=
  try_catch
    (taskId ← await (addBlockchainAccount api payload);
     track_account_task ADD_ACCOUNT "actions.balances.blockchain_account_add"
       payload taskId)
    (notify_account_error "actions.balances.blockchain_account_add" payload).

(** [actions.removeAccount({ commit, dispatch }, payload)] *)
Definition removeAccount (payload : BlockchainAccountPayload) : Action unit :=
  taskId ← await (removeBlockchainAccount api (p_blockchain payload)
                    (p_address payload));
  try_catch
    (track_account_task REMOVE_ACCOUNT
       "actions.balances.blockchain_account_removal" payload taskId)
    (notify_account_error "actions.balances.blockchain_account_removal"
       payload).

(** [actions.editAccount({ commit }, payload)] *)
Definition editAccount (payload : BlockchainAccountPayload) : Action unit :=
  if bool_decide (p_blockchain payload = ETH) then
    accountData ← await (editEthAccount api payload);
    commit (commit_ethAccounts accountData)
  else
    accountData ← await (editBtcAccount api payload);
    commit (commit_btcAccounts accountData).

End WithI18n.

(** [actions.removeTag({ commit, state }, tagName)]: the action awaits
    nothing and only commits, so it is given by the balances state it
    leaves.  The loop over [btcAccounts.xpubs] pushes one object per xpub, in
    order. *)
Definition removeTag (state : BalanceState) (tagName : string)
    : BalanceState :=
  let state1 :=
    commit_ethAccounts (removeTags (ethAccounts state) tagName) state in
  let btcAccounts := btcAccounts state1 in
  let standalone := removeTags (standalone btcAccounts) tagName in
  let xpubs := removeTag_xpub tagName <$> xpubs btcAccounts in
  commit_btcAccounts (mkBtcAccountData standalone xpubs) state1.

End actions.

End Balances.

(** ** A polling round: [monitor] and the settlement of its polls *)

Module Polling.

Section WithHelpers.

Variable tc : string → list (string * string) → string.
Variable validTaskStatus : Z → bool.
Variable handleResponse : Api.AxiosResponse → Outcome Api.TaskResult.
Variable setupTransformer : list string → string → Api.TaskEnvelope.
Variable defaultTransformResponse : string → Api.TaskEnvelope.

(** [api.queryTaskResult(task.id, task.meta.numericKeys)] for a task that
    has an identifier, given what the transport delivers for the request of
    each identifier. *)
Definition query (reply : Z → Api.HttpReply) (task : Task)
    : option (Task * Outcome ActionResult) :=
  n ← task_id task;
  Some (task,
        Api.queryTaskResult validTaskStatus handleResponse setupTransformer
          defaultTransformResponse n (numericKeys (task_meta task))
          (reply n)).

(** One tick of the timer: [monitor()] issues its polls, and the polls
    settle in the order in which they were issued. *)
Definition round (reply : Z → Api.HttpReply) (st : TaskManager.State)
    : TaskManager.State :=
  let '(st1, polls) := TaskManager.monitor st in
  TaskManager.settle_all tc (omap (query reply) polls) st1.

End WithHelpers.

End Polling.

(** ** Login ([RotkehlchenApi.login]) *)

Module Session.

(** The request handed to the transport. *)
Record Request : Type := mkRequest {
  req_method : string;
  req_url : string;
  req_body : list (string * string)
}.

(** [ActionResult<AccountState>]: the parsed body of the response. *)
Record Envelope : Type := mkEnvelope {
  env_result : option Payload;
  env_message : string
}.

Record AxiosResponse : Type := mkAxiosResponse {
  response_status : Z;
  response_data : Envelope
}.

(** What the promise of [login] rejects with: the [SyncConflictError] of
    [@/typing/types], built from a message and a payload, or another
    error. *)
Inductive Failure : Type :=
| SyncConflictError (message : string) (payload : Payload)
| Thrown (e : JsError).

Inductive Settled (A : Type) : Type :=
| Fulfilled (value : A)
| Failed (reason : Failure).
Arguments Fulfilled {A} value.
Arguments Failed {A} reason.

Section WithHelpers.

(** [validAccountOperationStatus] and [handleResponse] of
    [@/services/utils], [axiosCamelCaseTransformer] of
    [@/services/axios-tranformers] and the client's [transformResponse] are
    not under src: they are parameters. *)
Variable validAccountOperationStatus : Z → bool.
Variable handleResponse : AxiosResponse → Settled Payload.
Variable axiosCamelCaseTransformer : option Payload → Payload.
Variable transformResponse : string → Envelope.

(** [axios.patch(url, data, { validateStatus })] *)
Definition axios_patch (transport : Request → Api.HttpReply)
    (url : string) (data : list (string * string)) : Outcome AxiosResponse :=
  match transport (mkRequest "PATCH" url data) with
  | Api.NoResponse reason => Rejected (AxiosError reason)
  | Api.Response st body =>
    if validAccountOperationStatus st then
      Resolved (mkAxiosResponse st (transformResponse body))
    else
      Rejected (AxiosError ("Request failed with status code " +:+ pretty st))
  end.

(** [login(name, password, syncApproval = 'unknown')] *)
Definition login (transport : Request → Api.HttpReply)
    (name password : string) (syncApproval : option string)
    : Settled Payload :=
  match axios_patch transport ("/users/" +:+ name)
          [("action", "login"); ("password", password);
           ("sync_approval", default "unknown" syncApproval)] with
  | Rejected e => Failed (Thrown e)
  | Resolved response =>
    if decide (response_status response = 300%Z) then
      Failed (SyncConflictError
                (env_message (response_data response))
                (axiosCamelCaseTransformer
                   (env_result (response_data response))))
    else handleResponse response
  end.

End WithHelpers.

End Session.

(** ** Fetching actions of the balance store *)

Module Fetching.

Import Balances Balances.actions.

(** How the requests of [accounts] and [fetchBalances] settle, which of the
    two requests of [accounts] settles first, and the value of the root
    getter [tasks/isTaskRunning]. *)
Record Replies : Type := mkReplies {
  ethAccounts_reply : Outcome (list GeneralAccountData);
  btcAccounts_reply : Outcome BtcAccountData;
  eth_settles_first : bool;
  queryBalancesAsync : bool → bool → Outcome Z;
  isTaskRunning : TaskType → bool
}.

(** [Promise.all([p1, p2])]: fulfilled with both values, or rejected with
    the reason of the first promise that rejects. *)
Definition promise_all2 {A B : Type} (p1 : Outcome A) (p2 : Outcome B)
    (first_settles_first : bool) : Outcome (A * B) :=
  match p1, p2 with
  | Resolved a, Resolved b => Resolved (a, b)
  | Rejected e, Resolved _ => Rejected e
  | Resolved _, Rejected e => Rejected e
  | Rejected e1, Rejected e2 =>
    Rejected (if first_settles_first then e1 else e2)
  end.

(** The member [TaskType.QUERY_BALANCES]; its string value is declared in
    [@/model/task-type], which is not under src. *)
Definition QUERY_BALANCES : TaskType := "query_balances".

(** [AllBalancePayload] *)
Record AllBalancePayload : Type := mkAllBalancePayload {
  ignoreCache : bool;
  saveData : bool
}.

Section WithReplies.

(** [`${e}`], the rendering of a thrown value in a template literal, is a
    parameter. *)
Variable show_error : JsError → string.
Variable api : Replies.

(** [actions.accounts({ commit })] *)
Definition accounts : Action unit :=
  try_catch
    (both ← await (promise_all2 (ethAccounts_reply api)
                     (btcAccounts_reply api) (eth_settles_first api));
     commit (commit_ethAccounts both.1);;
     commit (commit_btcAccounts both.2))
    (λ e, notify ("Failed to accounts: " +:+ show_error e)
            "Querying accounts" ERROR true).

(** [actions.fetchBalances({ commit, rootGetters, dispatch }, payload)];
    an omitted payload is [{ ignoreCache: false, saveData: false }]. *)
Definition fetchBalances (payload : option AllBalancePayload)
    : Action unit :=
  let payload := default (mkAllBalancePayload false false) payload in
  if isTaskRunning api QUERY_BALANCES then mret tt
  else
    try_catch
      (result ← await (queryBalancesAsync api (ignoreCache payload)
                         (saveData payload));
       commit_tasks_add
         (createTask result QUERY_BALANCES
            (mkTaskMeta "Query All Balances" None (Some true) None None)))
      (λ e, notify ("Failed to fetch all balances: " +:+ show_error e)
              "Querying all Balances" ERROR true);;
    accounts.

End WithReplies.

End Fetching.

(** ** Exchange actions of the balance store *)

Module Exchanges.

(** What an exchange action does to the store, in order: the mutations
    [addExchange] and [removeExchange], the detached dispatch of
    [fetchExchangeBalances], and [showError] of [@/store/utils] are not
    under src, so the calls themselves are recorded. *)
Inductive Effect : Type :=
| Committed (mutation payload : string)
| DispatchedDetached (action name : string)
| ShownError (description title : string).

(** An action body: the effects so far and how it completes. *)
Definition Run (A : Type) : Type := list Effect * Outcome A.

Global Instance Run_ret : MRet Run := λ A x, ([], Resolved x).

Global Instance Run_bind : MBind Run := λ A B f m,
  match m with
  | (effects, Resolved v) =>
    let '(more, out) := f v in (effects ++ more, out)
  | (effects, Rejected e) => (effects, Rejected e)
  end.

Definition emit (e : Effect) : Run unit := ([e], Resolved tt).

Definition await {A : Type} (p : Outcome A) : Run A := ([], p).

(** [try { body } catch (e) { handler }] *)
Definition try_catch {A : Type} (body : Run A) (handler : JsError → Run A)
    : Run A :=
  match body with
  | (effects, Rejected e) =>
    let '(more, out) := handler e in (effects ++ more, out)
  | (effects, Resolved v) => (effects, Resolved v)
  end.

(** [ExchangePayload] *)
Record ExchangePayload : Type := mkExchangePayload {
  exchange : string;
  apiKey : string;
  apiSecret : string;
  passphrase : option string
}.

Section WithHelpers.

(** [i18n.tc] and the error thrown by [assert] of [@/utils/assertions] for
    a message are not under src: parameters.  [assert(condition, msg)]
    throws when the condition is false. *)
Variable tc : string → list (string * string) → string.
Variable assertion_error : string → JsError.

Definition assert (condition : bool) (msg : string) : Run unit :=
  if condition then mret tt else await (Rejected (assertion_error msg)).

(** [actions.setupExchange({ commit, dispatch }, payload)], given how
    [api.setupExchange(exchange, apiKey, apiSecret, passphrase ?? null)]
    settles. *)
Definition setupExchange
    (api_setupExchange : string → string → string → option string →
                         Outcome bool)
    (payload : ExchangePayload) : Run bool :=
  try_catch
    (success ← await (api_setupExchange (exchange payload) (apiKey payload)
                        (apiSecret payload) (passphrase payload));
     emit (Committed "addExchange" (exchange payload));;
     emit (DispatchedDetached "fetchExchangeBalances" (exchange payload));;
     mret success)
    (λ e,
       emit (ShownError
               (tc "actions.balances.exchange_setup.description"
                  [("exchange", exchange payload);
                   ("error", error_message e)])
               (tc "actions.balances.exchange_setup.title" []));;
       mret false).

(** [`${exchange} not found in ${connectedExchanges.join(', ')}`] *)
Definition not_connected_message (connectedExchanges : list string)
    (exchange : string) : string :=
  exchange +:+ " not found in " +:+ String.concat ", " connectedExchanges.

(** [actions.removeExchange({ commit, state: { connectedExchanges } },
    exchange)], given how [api.removeExchange(exchange)] settles. *)
Definition removeExchange (api_removeExchange : string → Outcome bool)
    (connectedExchanges : list string) (exchange : string) : Run bool :=
  try_catch
    (success ← await (api_removeExchange exchange);
     (if success : bool then
        let exchangeIndex := Balances.indexOf connectedExchanges exchange in
        assert (bool_decide (0 ≤ exchangeIndex)%Z)
          (not_connected_message connectedExchanges exchange);;
        emit (Committed "removeExchange" exchange)
      else mret tt);;
     mret success)
    (λ e,
       emit (ShownError
               (tc "actions.balances.exchange_removal.description"
                  [("exchange", exchange); ("error", error_message e)])
               (tc "actions.balances.exchange_removal.title" []));;
       mret false).

End WithHelpers.

End Exchanges.

(** ** The status mixin ([mixins/status-mixin.ts]) *)

Module StatusMixin.

Section WithEnums.

(** The enums [Section] and [Status] of [@/store/const] are not under src:
    the types and the members the mixin names are parameters, as is the
    error thrown by [assert]. *)
Context {SectionId : Type} `{EqDecision SectionId} (NONE : SectionId).
Context {Status : Type} `{EqDecision Status}
  (LOADED PARTIALLY_LOADED REFRESHING LOADING : Status).
Variable assertion_error : JsError.

(** [get loading()] for a component of section [section], [status] being
    the store getter. *)
Definition loading (section : SectionId) (status : SectionId → Status)
    : Outcome bool :=
  if decide (section ≠ NONE) then
    let status := status section in
    Resolved (negb (bool_decide (status = LOADED) ||
                    bool_decide (status = PARTIALLY_LOADED) ||
                    bool_decide (status = REFRESHING)))
  else Rejected assertion_error.

(** [get refreshing()] *)
Definition refreshing (section : SectionId) (status : SectionId → Status)
    : Outcome bool :=
  if decide (section ≠ NONE) then
    let status := status section in
    Resolved (bool_decide (status = LOADING) ||
              bool_decide (status = REFRESHING) ||
              bool_decide (status = PARTIALLY_LOADED))
  else Rejected assertion_error.

End WithEnums.

End StatusMixin.

(** ** Settings converters ([data/converters.ts]) *)

Module Converters.

(** A setting value whose type the converters do not inspect. *)
Definition Value : Type := string.

(** The fields of [DBSettings] that the converters read. *)
Record DBSettings : Type := mkDBSettings {
  ui_floating_precision : Value;
  historical_data_start : Value;
  main_currency : string;
  date_display_format : Value;
  thousand_separator : Value;
  decimal_separator : Value;
  currency_location : Value;
  balance_save_frequency : Value;
  eth_rpc_endpoint : Value;
  anonymized_logs : Value;
  submit_usage_analytics : Value;
  kraken_account_type : Value;
  active_modules : Value;
  taxfree_after_period : Value;
  include_gas_costs : Value;
  include_crypto2crypto : Value
}.

(** [AccountingSettings] *)
Record AccountingSettings : Type := mkAccountingSettings {
  taxFreeAfterPeriod : Value;
  includeGasCosts : Value;
  includeCrypto2Crypto : Value
}.

Section WithCurrencies.

(** [Currency] of [@/model/currency] and the list [currencies] of
    [@/data/currencies] are not under src: parameters. *)
Context {Currency : Type} (ticker_symbol : Currency → string)
  (currencies : list Currency).

(** [GeneralSettings] *)
Record GeneralSettings : Type := mkGeneralSettings {
  floatingPrecision : Value;
  historicDataStart : Value;
  selectedCurrency : Currency;
  dateDisplayFormat : Value;
  thousandSeparator : Value;
  decimalSeparator : Value;
  currencyLocation : Value;
  balanceSaveFrequency : Value;
  ethRpcEndpoint : Value;
  anonymizedLogs : Value;
  anonymousUsageAnalytics : Value;
  krakenAccountType : Value;
  activeModules : Value
}.

(** [findCurrency(currencySymbol)] *)
Definition findCurrency (currencySymbol : string) : Outcome Currency :=
  match
    List.find (λ currency, bool_decide (ticker_symbol currency = currencySymbol))
      currencies
  with
  | Some currency => Resolved currency
  | None => Rejected (Error ("Could not find " +:+ currencySymbol))
  end.

(** [convertToGeneralSettings(settings)] *)
Definition convertToGeneralSettings (settings : DBSettings)
    : Outcome GeneralSettings :=
  currency ← findCurrency (main_currency settings);
  Resolved
    (mkGeneralSettings
       (ui_floating_precision settings)
       (historical_data_start settings)
       currency
       (date_display_format settings)
       (thousand_separator settings)
       (decimal_separator settings)
       (currency_location settings)
       (balance_save_frequency settings)
       (eth_rpc_endpoint settings)
       (anonymized_logs settings)
       (submit_usage_analytics settings)
       (kraken_account_type settings)
       (active_modules settings)).

End WithCurrencies.

(** [convertToAccountingSettings(settings)] *)
Definition convertToAccountingSettings (settings : DBSettings)
    : AccountingSettings :=
  mkAccountingSettings (taxfree_after_period settings)
    (include_gas_costs settings) (include_crypto2crypto settings).

End Converters.

(** ** Removal of an xpub ([actions.deleteXpub]) *)

Module Xpub.

Import Balances Balances.actions.

(** [XpubPayload] *)
Record XpubPayload : Type := mkXpubPayload {
  xpub : string;
  derivationPath : string
}.

(** How the awaited calls of [deleteXpub] settle, and the value of the root
    getter [tasks/isTaskRunning]. *)
Record Replies : Type := mkReplies {
  deleteXpub_reply : XpubPayload → Outcome Z;
  taskCompletion : TaskType → option string → Outcome BlockchainBalances;
  isTaskRunning : TaskType → bool
}.

Section WithI18n.

Variable tc : string → list (string * string) → string.
Variable blockchainBalanceKeys : list string.
Variable api : Replies.

(** [actions.deleteXpub({ commit, dispatch, rootGetters }, payload)] *)
Definition deleteXpub (payload : XpubPayload) : Action unit :=
  try_catch
    (if isTaskRunning api REMOVE_ACCOUNT then mret tt
     else
       taskId ← await (deleteXpub_reply api payload);
       commit_tasks_add
         (createTask taskId REMOVE_ACCOUNT
            (mkTaskMeta
               (tc "actions.balances.xpub_removal.task.title" [])
               (Some (tc "actions.balances.xpub_removal.task.description"
                        [("xpub", xpub payload)]))
               None (Some blockchainBalanceKeys)
               (Some (show_blockchain BTC))));;
       result ← await (taskCompletion api REMOVE_ACCOUNT None);
       updateBalances (Some BTC) result)
    (λ e,
       let ttl := tc "actions.balances.xpub_removal.error.title" [] in
       let description :=
         tc "actions.balances.xpub_removal.error.description"
           [("xpub", xpub payload); ("error", error_message e)] in
       notify description ttl ERROR true).

End WithI18n.

End Xpub.

(** ** Sample data used to run the definitions *)

(** A stand-in for the locale: the key followed by the parameter values. *)
Definition sample_tc (key : string) (params : list (string * string))
    : string :=
  key +:+ foldr (λ p acc, " " +:+ p.2 +:+ acc) "" params.

(** A locale with templates for the two messages of the task manager; the
    other keys render as themselves. *)
Definition sample_locale : I18n.Locale := λ key,
  if decide (key = "task_manager.not_found") then
    [I18n.Text "Task with id "; I18n.Param "taskId";
     I18n.Text " and title "; I18n.Param "title";
     I18n.Text " was not found"]
  else if decide (key = "task_manager.error") then
    [I18n.Text "An error occurred while processing task [";
     I18n.Param "taskId"; I18n.Text ", "; I18n.Param "title";
     I18n.Text "]: "; I18n.Param "error"]
  else [I18n.Text key].

Definition plain_meta : TaskMeta :=
  mkTaskMeta "Add account" (Some "Adding 0xabc") None None (Some "ETH").

Definition ignoring_meta : TaskMeta :=
  mkTaskMeta "Query All Balances" None (Some true) None None.

(** [{ id: 9, type: ADD_ACCOUNT }] *)
Definition task9 : Task := mkTask (Some 9%Z) "add_account" plain_meta.

(** [{ id: 7, type: QUERY_BALANCES }], created by [fetchBalances] with
    [ignoreResult: true]. *)
Definition task7 : Task := mkTask (Some 7%Z) "query_balances" ignoring_meta.

(** A task whose identifier is [null]. *)
Definition task_null : Task := mkTask None "add_account" plain_meta.

(** Handlers that return normally. *)
Definition by_type : TaskManager.Handler :=
  TaskManager.mkHandler "by-type" (λ _ _, None).

Definition by_type_and_id : TaskManager.Handler :=
  TaskManager.mkHandler "by-type-and-id" (λ _ _, None).

(** A handler that throws on a result without message and accepts one that
    carries a message. *)
Definition throws_on_success : TaskManager.Handler :=
  TaskManager.mkHandler "throws-on-success"
    (λ r _, if decide (message r = "") then Some (Error "cannot read result")
            else None).

(** A handler that throws on the not-found report of task 9 under
    [sample_locale] and accepts every other result. *)
Definition throws_on_not_found : TaskManager.Handler :=
  TaskManager.mkHandler "throws-on-not-found"
    (λ r _,
       if decide (message r =
                    "Task with id 9 and title Add account was not found")
       then Some (Error "task is gone") else None).

(** A handler that throws on every result. *)
Definition always_throws : TaskManager.Handler :=
  TaskManager.mkHandler "always-throws" (λ _ _, Some (Error "boom")).

Definition empty_state : TaskManager.State :=
  TaskManager.mkState [] [] ∅ [] [].

Definition sample_result : ActionResult := mkActionResult (Data "{...}") "".

(** A registry with the tasks 7 and 9, neither of them locked. *)
Definition two_tasks : TaskManager.State :=
  TaskManager.with_tasks [("7", task7); ("9", task9)] empty_state.

(** Handlers under [add_account] and under [add_account-9]. *)
Definition both_registered : TaskManager.State :=
  TaskManager.registerHandler "add_account" by_type_and_id (Some "9")
    (TaskManager.registerHandler "add_account" by_type None empty_state).

(** Task 7, locked by an outstanding poll, with a handler for its type. *)
Definition ignoring_registered : TaskManager.State :=
  TaskManager.registerHandler "query_balances" by_type None
    (TaskManager.with_locked [Some 7%Z]
       (TaskManager.with_tasks [("7", task7)] empty_state)).

(** A registry that holds a task without identifier. *)
Definition null_registered : TaskManager.State :=
  TaskManager.with_tasks [("9", task9); ("null", task_null)] empty_state.

(** Stand-ins for the helpers of [@/services/utils]: the polling endpoint
    accepts 200 and 404, and the envelope is unwrapped to its [result], its
    [message] being thrown when there is none. *)
Definition sample_validTaskStatus (status : Z) : bool :=
  bool_decide (status ∈ [200%Z; 404%Z]).

Definition sample_handleResponse (response : Api.AxiosResponse)
    : Outcome Api.TaskResult :=
  match Api.env_result (Api.response_data response) with
  | Some r => Resolved r
  | None => Rejected (Error (Api.env_message (Api.response_data response)))
  end.

(** A transformer that recognises two bodies: a completed task and a
    pending one. *)
Definition sample_transform (body : string) : Api.TaskEnvelope :=
  if decide (body = "completed") then
    Api.mkTaskEnvelope
      (Some (Api.mkTaskResult (Some sample_result) "completed")) ""
  else
    Api.mkTaskEnvelope (Some (Api.mkTaskResult None "pending")) "".

(** Accounts and a store for the balance actions. *)
Definition account_a : Balances.GeneralAccountData :=
  Balances.mkGeneralAccountData "0xa" "main" (Some ["cold"; "home"]).

Definition account_b : Balances.GeneralAccountData :=
  Balances.mkGeneralAccountData "0xb" "spare" (Some ["work"]).

Definition xpub_c : Balances.XpubAccountData :=
  Balances.mkXpubAccountData "xpub6C" "m/0" "savings" (Some ["home"; "work"])
    (Some [account_a; account_b]).

Definition sample_balances : Balances.BalanceState :=
  Balances.mkBalanceState (Data "eth") (Data "btc") (Data "totals")
    [account_a; account_b]
    (Balances.mkBtcAccountData [account_b] [xpub_c]).

Definition sample_store : Balances.actions.RootState :=
  Balances.actions.mkRootState sample_balances (Data "defi") [] [] [].

Definition eth_payload : Balances.actions.BlockchainAccountPayload :=
  Balances.actions.mkBlockchainAccountPayload "0xa" None [] Balances.ETH.

Definition fresh_balances : Balances.actions.BlockchainBalances :=
  Balances.actions.mkBlockchainBalances (Some (Data "eth2")) None
    (Data "totals2").

(** A backend on which every call succeeds. *)
Definition all_succeed : Balances.actions.Settlements :=
  Balances.actions.mkSettlements
    (λ _, Resolved 9%Z) (λ _ _, Resolved 9%Z)
    (λ _, Resolved [account_a])
    (λ _, Resolved (Balances.mkBtcAccountData [] []))
    (λ _ _, Resolved fresh_balances) (Resolved tt).

(** A backend that refuses every request. *)
Definition backend_down : Balances.actions.Settlements :=
  Balances.actions.mkSettlements
    (λ _, Rejected (Error "backend unreachable"))
    (λ _ _, Rejected (Error "backend unreachable"))
    (λ _, Rejected (Error "backend unreachable"))
    (λ _, Rejected (Error "backend unreachable"))
    (λ _ _, Rejected (Error "backend unreachable")) (Resolved tt).

(** A backend on which the task fails. *)
Definition task_fails : Balances.actions.Settlements :=
  Balances.actions.mkSettlements
    (λ _, Resolved 9%Z) (λ _ _, Resolved 9%Z)
    (λ _, Resolved [account_a])
    (λ _, Resolved (Balances.mkBtcAccountData [] []))
    (λ _ _, Rejected (Error "account exists")) (Resolved tt).

(** A backend on which only the last step, [resetDefiStatus], fails. *)
Definition reset_fails : Balances.actions.Settlements :=
  Balances.actions.mkSettlements
    (λ _, Resolved 9%Z) (λ _ _, Resolved 9%Z)
    (λ _, Resolved [account_a])
    (λ _, Resolved (Balances.mkBtcAccountData [] []))
    (λ _ _, Resolved fresh_balances) (Rejected (Error "status unavailable")).

(** Replies and helpers for the further properties. *)

(** Every poll finds its task still pending. *)
Definition pending_reply (n : Z) : Api.HttpReply := Api.Response 200 "pending".

(** Stand-ins for the helpers of [login]: the statuses 200, 300 and 401 are
    accepted, the body is kept as the result with the message
    [conflict], and the envelope is unwrapped to its result. *)
Definition sample_login_status (status : Z) : bool :=
  bool_decide (status ∈ [200%Z; 300%Z; 401%Z]).

Definition sample_login_parse (body : string) : Session.Envelope :=
  Session.mkEnvelope (Some (Data body)) "conflict".

Definition sample_login_unwrap (response : Session.AxiosResponse)
    : Session.Settled Payload :=
  match Session.env_result (Session.response_data response) with
  | Some r => Session.Fulfilled r
  | None =>
    Session.Failed
      (Session.Thrown
         (Error (Session.env_message (Session.response_data response))))
  end.

Definition sample_camel (result : option Payload) : Payload :=
  default EmptyObject result.

Definition conflicting_transport (request : Session.Request)
    : Api.HttpReply :=
  Api.Response 300 "remote is newer".

(** Replies for [accounts] and [fetchBalances]: all requests succeed, or
    the btc accounts cannot be read, or a balance query is running. *)
Definition replies_ok : Fetching.Replies :=
  Fetching.mkReplies (Resolved [account_a])
    (Resolved (Balances.mkBtcAccountData [] [])) true (λ _ _, Resolved 7%Z)
    (λ _, false).

Definition replies_btc_down : Fetching.Replies :=
  Fetching.mkReplies (Resolved [account_a])
    (Rejected (Error "backend unreachable")) true
    (λ _ _, Rejected (Error "backend unreachable")) (λ _, false).

Definition replies_running : Fetching.Replies :=
  Fetching.mkReplies (Resolved [account_a])
    (Resolved (Balances.mkBtcAccountData [] [])) true (λ _ _, Resolved 7%Z)
    (λ _, true).

Definition sample_show_error (e : JsError) : string :=
  "Error: " +:+ error_message e.

(** The error [assert] throws for a message. *)
Definition sample_assertion_error (msg : string) : JsError := Error msg.

Definition kraken_payload : Exchanges.ExchangePayload :=
  Exchanges.mkExchangePayload "kraken" "key" "secret" None.

(** Currencies, as pairs of a name and a ticker symbol, and database
    settings that select the second one. *)
Definition sample_currencies : list (string * string) :=
  [("United States Dollar", "USD"); ("Euro", "EUR"); ("Euro (old)", "EUR")].

Definition sample_settings : Converters.DBSettings :=
  Converters.mkDBSettings "2" "01/08/2015" "EUR" "%d/%m/%Y" "," "." "after"
    "24" "http://localhost:8545" "false" "true" "starter" "[]" "1" "true"
    "true".

(** Replies for [deleteXpub]: the backend refuses the request. *)
Definition xpub_refused : Xpub.Replies :=
  Xpub.mkReplies (λ _, Rejected (Error "unknown xpub"))
    (λ _ _, Resolved fresh_balances) (λ _, false).

(** * Properties *)

(** ** Decimal rendering of identifiers *)

(** The decimal rendering of a number is never the word [null]. *)
Lemma pretty_N_go_ne_null (x : N) (s : string) :
  s ≠ "null" → pretty_N_go x s ≠ "null".
Proof.
  revert s. induction (N.lt_wf_0 x) as [x _ IH]; intros s Hs.
  assert (x = 0 ∨ 0 < x)%N as [->|Hpos] by lia.
  - by rewrite pretty_N_go_0.
  - rewrite pretty_N_go_step by done. apply IH.
    { by apply N.div_lt. }
    unfold pretty_N_char. by repeat case_match.
Qed.

Lemma pretty_Z_ne_null (n : Z) : pretty n ≠ "null".
Proof.
  unfold pretty, pretty_Z. destruct n as [|p|p]; [done| |done].
  unfold pretty, pretty_positive, pretty, pretty_N.
  case_decide; [done|]. by apply pretty_N_go_ne_null.
Qed.

Lemma pretty_N_go_ne_empty (x : N) (s : string) :
  s ≠ "" → pretty_N_go x s ≠ "".
Proof.
  revert s. induction (N.lt_wf_0 x) as [x _ IH]; intros s Hs.
  assert (x = 0 ∨ 0 < x)%N as [->|Hpos] by lia.
  - by rewrite pretty_N_go_0.
  - rewrite pretty_N_go_step by done. apply IH; [by apply N.div_lt|done].
Qed.

Lemma pretty_Z_ne_empty (n : Z) : pretty n ≠ "".
Proof.
  assert (Hpos : ∀ p : positive, pretty p ≠ "").
  { intros p. unfold pretty, pretty_positive, pretty, pretty_N.
    case_decide; [done|].
    rewrite pretty_N_go_step by lia. by apply pretty_N_go_ne_empty. }
  unfold pretty, pretty_Z. destruct n as [|p|p]; [done|apply Hpos|done].
Qed.

Lemma id_key_inj : Inj (=) (=) id_key.
Proof.
  intros [x|] [y|] Heq; simpl in Heq; try done.
  - f_equal. by apply (inj pretty).
  - by destruct (pretty_Z_ne_null x).
  - by destruct (pretty_Z_ne_null y).
Qed.

(** ** Filtering lists *)

Lemma filter_none {A} (P : A → Prop) `{!∀ x, Decision (P x)} (l : list A) :
  Forall (λ x, ¬ P x) l → filter P l = [].
Proof.
  induction 1 as [|x l Hx _ IH]; [done|].
  by rewrite filter_cons_False.
Qed.

Lemma filter_filter_length {A} (P Q : A → Prop)
    `{!∀ x, Decision (P x)} `{!∀ x, Decision (Q x)} (l : list A) :
  (length (filter Q (filter P l)) ≤ length (filter Q l))%nat.
Proof.
  induction l as [|x l IH]; [done|].
  destruct (decide (P x)); destruct (decide (Q x));
    rewrite ?(filter_cons_True P), ?(filter_cons_False P),
            ?(filter_cons_True Q), ?(filter_cons_False Q) by done;
    simpl; lia.
Qed.

Lemma filter_twice {A} (P : A → Prop) `{!∀ x, Decision (P x)} (l : list A) :
  filter P (filter P l) = filter P l.
Proof.
  induction l as [|x l IH]; [done|].
  destruct (decide (P x)).
  - rewrite !filter_cons_True by done. by rewrite IH.
  - by rewrite !filter_cons_False.
Qed.

(** ** The task manager *)

Section TaskManagerFacts.

Import TaskManager.

Variable tc : string → list (string * string) → string.

Implicit Types (st : State) (task : Task) (id : TaskId).

Lemma calls_since_same st st' :
  invocations st' = invocations st → calls_since st st' = [].
Proof. unfold calls_since. intros ->. by rewrite drop_all. Qed.

Lemma notes_since_same st st' :
  notifications st' = notifications st → notes_since st st' = [].
Proof. unfold notes_since. intros ->. by rewrite drop_all. Qed.

Lemma removed_after_commit_remove id st :
  removed id (commit_remove id st).
Proof.
  unfold removed, commit_remove; simpl.
  apply Forall_forall. intros e He. by apply list_elem_of_filter in He as [? _].
Qed.

Lemma removed_commit_remove id id' st :
  removed id st → removed id (commit_remove id' st).
Proof.
  unfold removed, commit_remove; simpl. intros H.
  apply Forall_forall. intros e He. apply list_elem_of_filter in He as [_ He].
  by eapply Forall_forall in H.
Qed.

(** What [handleResult] leaves of the registry: the same entries, with or
    without the task's own. *)
Lemma handleResult_tasks res task st :
  tasks (handleResult tc res task st).1 = tasks st ∨
  tasks (handleResult tc res task st).1 =
    tasks (commit_remove (task_id task) st).
Proof.
  unfold handleResult.
  repeat (case_match; simpl); auto.
Qed.

Lemma handleResult_keeps_removed res task id st :
  removed id st → removed id (handleResult tc res task st).1.
Proof.
  intros H. destruct (handleResult_tasks res task st) as [Heq|Heq];
    unfold removed in *; rewrite Heq; [done|].
  by apply removed_commit_remove.
Qed.

Lemma on_rejected_tasks task e st :
  tasks (on_rejected tc task e st).1 = tasks st ∨
  tasks (on_rejected tc task e st).1 =
    filter (λ x, x.1 ≠ id_key (task_id task)) (tasks st).
Proof.
  unfold on_rejected. case_match; [|by left]. right.
  destruct (handleResult_tasks (Some (not_found_result tc task)) task
              (commit_remove (task_id task)
                 (commit_unlock (task_id task) st))) as [-> | ->];
    simpl; [done|]. apply filter_twice.
Qed.

Lemma settle_tasks task reply st :
  tasks (settle tc task reply st).1 = tasks st ∨
  tasks (settle tc task reply st).1 =
    filter (λ x, x.1 ≠ id_key (task_id task)) (tasks st).
Proof.
  unfold settle. destruct reply as [r|e]; [|apply on_rejected_tasks].
  pose proof (handleResult_tasks (Some r) task st) as Hh.
  destruct (handleResult tc (Some r) task st) as [st1 [e|]]; simpl in *;
    [|done].
  destruct (on_rejected_tasks task e st1) as [-> | ->];
    destruct Hh as [-> | ->]; simpl; auto.
  right. apply filter_twice.
Qed.

Lemma on_rejected_not_found_tasks task m st :
  tasks (on_rejected tc task (TaskNotFoundError m) st).1 =
    filter (λ x, x.1 ≠ id_key (task_id task)) (tasks st).
Proof.
  unfold on_rejected; simpl.
  destruct (handleResult_tasks (Some (not_found_result tc task)) task
              (commit_remove (task_id task)
                 (commit_unlock (task_id task) st))) as [-> | ->];
    simpl; [done|]. apply filter_twice.
Qed.

Lemma calls_since_app st st' (k : list Invocation) :
  invocations st' = invocations st ++ k → calls_since st st' = k.
Proof. unfold calls_since. intros ->. apply drop_app_length. Qed.

Lemma notes_since_app st st' (k : list Notification) :
  notifications st' = notifications st ++ k → notes_since st st' = k.
Proof. unfold notes_since. intros ->. apply drop_app_length. Qed.

(** A type-only key never coincides with a qualified key of the same
    type. *)
Lemma type_key_ne_qualified (t s : string) : t ≠ t +:+ "-" +:+ s.
Proof. induction t as [|a t IH]; simpl; [done|]. intros [=]. done. Qed.

(** The dispatch of a result that is neither ignored nor null, when the
    lookup finds [h]. *)
Lemma handleResult_found r task st h :
  truthy (ignoreResult (task_meta task)) = false →
  lookup_handler (handler st) task = Some h →
  handleResult tc (Some r) task st =
    let meta := task_meta task in
    let st1 := record_call h r meta st in
    match handler_body h r meta with
    | None => (commit_remove (task_id task) st1, None)
    | Some e =>
      let st2 := record_call h (error_result tc task e) meta st1 in
      match handler_body h (error_result tc task e) meta with
      | None => (commit_remove (task_id task) st2, None)
      | Some e2 => (st2, Some e2)
      end
    end.
Proof. intros Hign Hl. unfold handleResult. by rewrite Hign, Hl. Qed.

Lemma handleResult_found_calls r task st h :
  truthy (ignoreResult (task_meta task)) = false →
  lookup_handler (handler st) task = Some h →
  calls_since st (handleResult tc (Some r) task st).1 =
    mkInvocation h r (task_meta task) ::
    match handler_body h r (task_meta task) with
    | None => []
    | Some e => [mkInvocation h (error_result tc task e) (task_meta task)]
    end.
Proof.
  intros Hign Hl. rewrite (handleResult_found r task st h Hign Hl); simpl.
  apply calls_since_app.
  destruct (handler_body h r _) as [e|]; simpl; [|done].
  destruct (handler_body h (error_result tc task e) _); simpl;
    by rewrite <-app_assoc.
Qed.

(** C1 (as amended).  When a handler is registered under the task's type and
    another under the task's [type-id] key, in either order, the dispatch of
    a result calls the type-only handler, first with the result itself, and
    never the [type-id] handler; the [type-id] handler is called only when
    no handler is registered under the bare type. *)
Theorem type_only_handler_takes_precedence
    (st : State) (T : TaskType) (n : Z) (meta : TaskMeta)
    (r : ActionResult) (hT hI : Handler) :
  truthy (ignoreResult meta) = false →
  let task := mkTask (Some n) T meta in
  let both1 :=
    registerHandler T hI (Some (pretty n)) (registerHandler T hT None st) in
  let both2 :=
    registerHandler T hT None (registerHandler T hI (Some (pretty n)) st) in
  let only_id := registerHandler T hI (Some (pretty n)) st in
  (∀ both, both = both1 ∨ both = both2 →
     ∃ rest,
       calls_since both (handleResult tc (Some r) task both).1 =
         mkInvocation hT r meta :: rest ∧
       Forall (λ c, inv_handler c = hT) rest) ∧
  (handler st !! T = None →
     ∃ rest,
       calls_since only_id (handleResult tc (Some r) task only_id).1 =
         mkInvocation hI r meta :: rest ∧
       Forall (λ c, inv_handler c = hI) rest).
Proof.
  intros Hign task both1 both2 only_id.
  assert (Hid : identifier T (Some (pretty n)) = T +:+ "-" +:+ pretty n).
  { unfold identifier. case_decide as Hempty; [|done].
    by destruct (pretty_Z_ne_empty n). }
  assert (Hne : T ≠ T +:+ "-" +:+ pretty n) by apply type_key_ne_qualified.
  split.
  - intros both Hboth.
    assert (Hl : lookup_handler (handler both) task = Some hT).
    { unfold lookup_handler, task; cbn [task_type task_id id_key].
      destruct Hboth as [-> | ->]; unfold both1, both2, registerHandler;
        cbn [handler with_handler]; rewrite Hid; cbn [identifier].
      + rewrite lookup_insert_ne by done. by rewrite lookup_insert_eq.
      + by rewrite lookup_insert_eq. }
    rewrite (handleResult_found_calls r task both hT Hign Hl).
    eexists; split; [done|].
    destruct (handler_body hT r _); repeat constructor.
  - intros Hnone.
    assert (Hl : lookup_handler (handler only_id) task = Some hI).
    { unfold lookup_handler, task, only_id, registerHandler;
        cbn [task_type task_id id_key handler with_handler]. rewrite Hid.
      rewrite lookup_insert_ne by done. rewrite Hnone.
      by rewrite lookup_insert_eq. }
    rewrite (handleResult_found_calls r task only_id hI Hign Hl).
    eexists; split; [done|].
    destruct (handler_body hI r _); repeat constructor.
Qed.

(** The [catch] callback of a poll on a not-found rejection. *)
Lemma on_rejected_not_found task m st :
  on_rejected tc task (TaskNotFoundError m) st =
    handleResult tc (Some (not_found_result tc task)) task
      (commit_remove (task_id task) (commit_unlock (task_id task) st)).
Proof. done. Qed.

Lemma handleResult_ignored res task st :
  truthy (ignoreResult (task_meta task)) = true →
  handleResult tc res task st = (commit_remove (task_id task) st, None).
Proof. intros H. unfold handleResult. by rewrite H. Qed.

(** C9.  For a task whose meta sets [ignoreResult], a delivered result, be
    it the backend's or the synthetic not-found one, removes the task's
    entry from the registry and nothing else, calls no handler and emits no
    notification; nothing is thrown. *)
Theorem ignored_result_only_removes_task
    (task : Task) (st : State) (r : ActionResult) (m : string)
    (reply : Outcome ActionResult) :
  truthy (ignoreResult (task_meta task)) = true →
  reply = Resolved r ∨ reply = Rejected (TaskNotFoundError m) →
  let out := settle tc task reply st in
  out.2 = None ∧
  tasks out.1 = filter (λ e, e.1 ≠ id_key (task_id task)) (tasks st) ∧
  removed (task_id task) out.1 ∧
  calls_since st out.1 = [] ∧
  notes_since st out.1 = [] ∧
  handler out.1 = handler st ∧
  (∀ res, handleResult tc res task st =
            (commit_remove (task_id task) st, None)).
Proof.
  intros Hign Hreply out. subst out.
  destruct Hreply as [-> | ->]; unfold settle.
  - rewrite handleResult_ignored by done; simpl.
    split_and!; try done.
    + apply removed_after_commit_remove.
    + by apply calls_since_same.
    + by apply notes_since_same.
    + intros res. by apply handleResult_ignored.
  - rewrite on_rejected_not_found_tasks.
    rewrite on_rejected_not_found, handleResult_ignored by done; simpl.
    split_and!; try done.
    + apply removed_after_commit_remove.
    + by apply calls_since_same.
    + by apply notes_since_same.
    + intros res. by apply handleResult_ignored.
Qed.


(** The [catch] of [handleResult].  When the handler found for a task
    throws on a result, [handleResult] calls the same handler a second time
    with [{ result: {}, message }] whose message is the [task_manager.error]
    rendering of the thrown error's message.  If that second call returns,
    nothing is thrown and the task is removed.  The second call is not
    guarded: if it throws too, its exception leaves [handleResult] before
    [tasks/remove] is committed. *)
Lemma handler_exception_is_redelivered
    (st : State) (task : Task) (r : ActionResult) (h : Handler)
    (e : JsError) :
  truthy (ignoreResult (task_meta task)) = false →
  lookup_handler (handler st) task = Some h →
  handler_body h r (task_meta task) = Some e →
  let failure := error_result tc task e in
  let out := handleResult tc (Some r) task st in
  calls_since st out.1 =
    [mkInvocation h r (task_meta task);
     mkInvocation h failure (task_meta task)] ∧
  result failure = EmptyObject ∧
  message failure =
    tc "task_manager.error"
      [("taskId", id_key (task_id task)); ("title", title (task_meta task));
       ("error", error_message e)] ∧
  (handler_body h failure (task_meta task) = None →
     out.2 = None ∧ removed (task_id task) out.1 ∧
     settle tc task (Resolved r) st = out) ∧
  (∀ e2, handler_body h failure (task_meta task) = Some e2 →
     out.2 = Some e2 ∧ tasks out.1 = tasks st).
Proof.
  intros Hign Hl He failure out.
  pose proof (handleResult_found r task st h Hign Hl) as Hout.
  pose proof (handleResult_found_calls r task st h Hign Hl) as Hcalls.
  cbn zeta in Hout. rewrite He in Hout, Hcalls. fold failure in Hout, Hcalls.
  fold out in Hout, Hcalls.
  split_and!; try done.
  - intros Hret. rewrite Hret in Hout. split_and!.
    + by rewrite Hout.
    + rewrite Hout. apply removed_after_commit_remove.
    + unfold settle. fold out. by rewrite Hout.
  - intros e2 Hthrow. rewrite Hthrow in Hout. by rewrite Hout.
Qed.

(** *** The polling pass *)

(** What one run of the loop does: it polls the pollable tasks in order and
    locks exactly those, reports the tasks without identifier, and touches
    neither the registry nor the handlers. *)
Lemma monitor_loop_spec (locked0 : list TaskId)
    (entries : list (string * Task)) st :
  let out := monitor_loop locked0 entries st in
  tasks out.1 = tasks st ∧
  handler out.1 = handler st ∧
  invocations out.1 = invocations st ∧
  out.2 = filter (pollable locked0) entries.*2 ∧
  locked out.1 = locked st ++ (task_id <$> out.2) ∧
  notifications out.1 =
    notifications st ++
    (null_identifier_notice <$> filter (λ t, task_id t = None) entries.*2).
Proof.
  revert st. induction entries as [|[k task] rest IH]; intros st.
  { simpl. by rewrite !app_nil_r. }
  cbn [monitor_loop]. rewrite !fmap_cons. cbn [snd].
  destruct (task_id task) as [n|] eqn:Hid.
  - rewrite (filter_cons_False (λ t, task_id t = None)) by congruence.
    case_decide as Hlocked.
    + rewrite filter_cons_False; [apply IH|].
      unfold pollable. rewrite Hid. tauto.
    + rewrite filter_cons_True by (unfold pollable; rewrite Hid; eauto).
      specialize (IH (commit_lock (Some n) st)).
      destruct (monitor_loop locked0 rest (commit_lock (Some n) st))
        as [st' polls].
      cbn [fst snd] in *. destruct IH as (Ht & Hh & Hi & Hp & Hl & Hn).
      split_and!; try done.
      * by rewrite Hp.
      * rewrite Hl, fmap_cons, Hid. cbn [commit_lock with_locked locked].
        by rewrite <-app_assoc.
  - rewrite filter_cons_False by (unfold pollable; rewrite Hid;
      intros [[? [=]] _]).
    rewrite (filter_cons_True (λ t, task_id t = None)) by done.
    specialize (IH (notify (null_identifier_message task)
                      "Invalid task found" WARNING false st)).
    destruct IH as (Ht & Hh & Hi & Hp & Hl & Hn).
    split_and!; try done.
    rewrite Hn, fmap_cons. cbn [notify notifications].
    by rewrite <-app_assoc.
Qed.

(** Settling a poll changes the locked array at most by unlocking the
    polled task, and the registry at most by dropping entries. *)
Lemma handleResult_locked res task st :
  locked (handleResult tc res task st).1 = locked st.
Proof. unfold handleResult. by repeat (case_match; simpl). Qed.

Lemma on_rejected_locked task e st :
  locked (on_rejected tc task e st).1 =
    filter (λ x, x ≠ task_id task) (locked st).
Proof.
  unfold on_rejected. case_match; [|done].
  by rewrite handleResult_locked.
Qed.

Lemma settle_keeps_lock task reply st id :
  task_id task ≠ id → id ∈ locked st →
  id ∈ locked (settle tc task reply st).1.
Proof.
  intros Hne Hin. unfold settle. destruct reply as [r|e].
  - destruct (handleResult tc (Some r) task st) as [st1 [e|]] eqn:Hres;
      pose proof (handleResult_locked (Some r) task st) as Hl;
      rewrite Hres in Hl; simpl in Hl.
    + rewrite on_rejected_locked, Hl. apply list_elem_of_filter. by split.
    + simpl. by rewrite Hl.
  - rewrite on_rejected_locked. apply list_elem_of_filter. by split.
Qed.

Lemma handleResult_entries res task st e :
  e ∈ tasks (handleResult tc res task st).1 → e ∈ tasks st.
Proof.
  destruct (handleResult_tasks res task st) as [-> | ->]; [done|].
  unfold commit_remove; simpl. by intros [_ ?]%list_elem_of_filter.
Qed.

Lemma on_rejected_entries task e st x :
  x ∈ tasks (on_rejected tc task e st).1 → x ∈ tasks st.
Proof.
  unfold on_rejected. case_match; [|done].
  intros Hx%handleResult_entries. unfold commit_remove in Hx; simpl in Hx.
  by apply list_elem_of_filter in Hx as [_ ?].
Qed.

Lemma settle_entries task reply st x :
  x ∈ tasks (settle tc task reply st).1 → x ∈ tasks st.
Proof.
  unfold settle. destruct reply as [r|e].
  - destruct (handleResult tc (Some r) task st) as [st1 [e|]] eqn:Hres.
    + intros Hx%on_rejected_entries.
      apply (handleResult_entries (Some r) task st). by rewrite Hres.
    + simpl. intros Hx.
      apply (handleResult_entries (Some r) task st). by rewrite Hres.
  - apply on_rejected_entries.
Qed.

Lemma settle_all_keeps_lock (events : list (Task * Outcome ActionResult))
    st id :
  Forall (λ ev, task_id ev.1 ≠ id) events → id ∈ locked st →
  id ∈ locked (settle_all tc events st).
Proof.
  revert st. induction events as [|[task reply] rest IH]; intros st Hall Hin;
    [done|].
  apply Forall_cons in Hall as [Hne Hall]. simpl.
  apply IH; [done|]. by apply settle_keeps_lock.
Qed.

Lemma settle_all_entries (events : list (Task * Outcome ActionResult)) st x :
  x ∈ tasks (settle_all tc events st) → x ∈ tasks st.
Proof.
  revert st. induction events as [|[task reply] rest IH]; intros st; [done|].
  simpl. intros Hx%IH. by eapply settle_entries.
Qed.

(** In a registry built by the store, an identifier names at most one
    task. *)
Lemma registry_wf_unique_id (entries : list (string * Task)) (id : TaskId) :
  registry_wf entries →
  (length (filter (λ t, task_id t = id) entries.*2) ≤ 1)%nat.
Proof.
  intros [Hnodup Hkeys].
  induction entries as [|[k task] rest IH]; [simpl; lia|].
  rewrite fmap_cons in *. cbn [fst snd] in *.
  apply NoDup_cons in Hnodup as [Hnotin Hnodup].
  apply Forall_cons in Hkeys as [Hk Hkeys]. simpl in Hk.
  destruct (decide (task_id task = id)) as [Heq|Hne].
  - rewrite filter_cons_True by done.
    assert (Hnil : filter (λ t, task_id t = id) rest.*2 = []).
    { apply filter_none, Forall_forall. intros t Ht Hid.
      apply list_elem_of_fmap in Ht as [[k' t'] [-> Hin]].
      apply Hnotin, list_elem_of_fmap. exists (k', t'). split; [|done].
      eapply Forall_forall in Hkeys; [|done]. simpl in *. congruence. }
    rewrite Hnil. simpl; lia.
  - rewrite filter_cons_False by done. by apply IH.
Qed.

Lemma monitor_spec st :
  let out := monitor st in
  tasks out.1 = tasks st ∧
  handler out.1 = handler st ∧
  invocations out.1 = invocations st ∧
  out.2 = filter (pollable (locked st)) (tasks st).*2 ∧
  locked out.1 = locked st ++ (task_id <$> out.2) ∧
  notifications out.1 =
    notifications st ++
    (null_identifier_notice <$>
       filter (λ t, task_id t = None) (tasks st).*2).
Proof. apply monitor_loop_spec. Qed.

(** C3.  After a pass of [monitor], and whatever polls of other tasks settle
    in between, the next pass issues no poll for an identifier [n]: the
    first pass has put every identifier it polled in the locked array, and
    the second pass skips the identifiers found there.  Over the two passes
    at most one poll is issued for [n]. *)
Theorem second_monitor_skips_locked_task
    (st : State) (n : Z) (others : list (Task * Outcome ActionResult)) :
  registry_wf (tasks st) →
  Forall (λ ev, task_id ev.1 ≠ Some n) others →
  let first := monitor st in
  let second := monitor (settle_all tc others first.1) in
  Forall (λ t, task_id t ∈ locked first.1) first.2 ∧
  Forall (λ t, task_id t ≠ Some n) second.2 ∧
  (length (filter (λ t, task_id t = Some n) (first.2 ++ second.2)) ≤ 1)%nat.
Proof.
  intros Hwf Hothers first second.
  destruct (monitor_spec st) as (Ht1 & _ & _ & Hp1 & Hl1 & _).
  fold first in Ht1, Hp1, Hl1.
  set (st' := settle_all tc others first.1) in *.
  destruct (monitor_spec st') as (_ & _ & _ & Hp2 & _ & _).
  fold second in Hp2.
  assert (Hfirst : Forall (λ t, task_id t ∈ locked first.1) first.2).
  { apply Forall_forall. intros t Ht. rewrite Hl1.
    apply elem_of_app. right. by apply list_elem_of_fmap_2. }
  assert (Hsecond : Forall (λ t, task_id t ≠ Some n) second.2).
  { apply Forall_forall. intros t Ht Hid. rewrite Hp2 in Ht.
    apply list_elem_of_filter in Ht as [[_ Hfree] Hin].
    apply Hfree. rewrite Hid.
    apply settle_all_keeps_lock; [done|].
    apply list_elem_of_fmap in Hin as [[k t'] [-> Hin]].
    apply settle_all_entries in Hin. rewrite Ht1 in Hin. simpl in Hid.
    destruct (decide (Some n ∈ locked st)) as [Hl|Hl].
    - rewrite Hl1. apply elem_of_app. by left.
    - rewrite <-Hid. eapply Forall_forall in Hfirst; [done|].
      rewrite Hp1. apply list_elem_of_filter. split.
      + split; [by rewrite Hid|]. by rewrite Hid.
      + apply list_elem_of_fmap. by exists (k, t'). }
  split_and!; try done.
  rewrite filter_app, length_app.
  rewrite (filter_none _ second.2)
    by (eapply Forall_impl; [exact Hsecond|]; naive_solver).
  rewrite Hp1. simpl.
  pose proof (filter_filter_length (pollable (locked st))
                (λ t, task_id t = Some n) (tasks st).*2).
  pose proof (registry_wf_unique_id (tasks st) (Some n) Hwf). lia.
Qed.

(** *** Tasks without identifier *)

(** Removing the entry of a number leaves the entries of the tasks without
    identifier alone. *)
Lemma null_entries_survive_removal (entries : list (string * Task)) (n : Z) :
  Forall (λ e, e.1 = id_key (task_id e.2)) entries →
  filter (λ e, task_id e.2 = None)
    (filter (λ x, x.1 ≠ id_key (Some n)) entries) =
  filter (λ e, task_id e.2 = None) entries.
Proof.
  induction 1 as [|[k t] l Hk _ IH]; [done|]. simpl in Hk.
  destruct (decide (task_id t = None)) as [Hnull|Hsome].
  - rewrite (filter_cons_True (λ x, x.1 ≠ id_key (Some n))).
    2:{ simpl. rewrite Hk, Hnull. simpl. intros Heq.
        by destruct (pretty_Z_ne_null n). }
    rewrite !(filter_cons_True (λ e, task_id e.2 = None)) by done.
    by rewrite IH.
  - rewrite (filter_cons_False (λ e, task_id e.2 = None) (k, t)) by done.
    destruct (decide (k ≠ id_key (Some n))).
    + rewrite filter_cons_True by done.
      by rewrite filter_cons_False.
    + by rewrite filter_cons_False.
Qed.

(** C4 (as amended).  A pass of [monitor] never polls a task without
    identifier and leaves the registry as it is, and it emits the 'Invalid
    task found' diagnostic once for each such task: so does the next pass,
    and every pass after it.  Settling the poll of a task that has an
    identifier does not remove the tasks without identifier either. *)
Theorem null_id_task_is_reported_on_every_pass (st : State) :
  let nulls := filter (λ t, task_id t = None) (tasks st).*2 in
  let first := monitor st in
  let second := monitor first.1 in
  Forall (λ t, is_Some (task_id t)) first.2 ∧
  tasks first.1 = tasks st ∧
  notes_since st first.1 = null_identifier_notice <$> nulls ∧
  notes_since first.1 second.1 = null_identifier_notice <$> nulls ∧
  (∀ task reply,
     is_Some (task_id task) →
     Forall (λ e, e.1 = id_key (task_id e.2)) (tasks st) →
     filter (λ e, task_id e.2 = None) (tasks (settle tc task reply st).1) =
     filter (λ e, task_id e.2 = None) (tasks st)).
Proof.
  intros nulls first second.
  destruct (monitor_spec st) as (Ht1 & _ & _ & Hp1 & _ & Hn1).
  destruct (monitor_spec first.1) as (_ & _ & _ & _ & _ & Hn2).
  fold first in Ht1, Hp1, Hn1. fold second in Hn2. rewrite Ht1 in Hn2.
  split_and!.
  - rewrite Hp1. apply Forall_forall.
    by intros t [[? _] _]%list_elem_of_filter.
  - done.
  - by apply notes_since_app.
  - by apply notes_since_app.
  - intros task reply [n Hid] Hkeys.
    destruct (settle_tasks task reply st) as [-> | ->]; [done|].
    rewrite Hid. by apply null_entries_survive_removal.
Qed.

End TaskManagerFacts.

(** *** The not-found report *)

Section NotFoundFacts.

Import TaskManager.

Lemma string_app_assoc (a b c : string) : (a +:+ b) +:+ c = a +:+ b +:+ c.
Proof.
  induction a as [|x a IH]; [done|].
  change (String x ((a +:+ b) +:+ c) = String x (a +:+ b +:+ c)).
  by rewrite IH.
Qed.

Lemma string_app_nonempty (a b c : string) : b ≠ "" → a +:+ b +:+ c ≠ "".
Proof.
  intros Hb. destruct a as [|x a].
  - destruct b as [|y b]; [done|].
    change (String y (b +:+ c) ≠ ""). done.
  - change (String x (a +:+ b +:+ c) ≠ ""). done.
Qed.

Lemma id_key_ne_empty (id : TaskId) : id_key id ≠ "".
Proof. destruct id as [n|]; simpl; [apply pretty_Z_ne_empty|done]. Qed.

Lemma render_foldr (params : list (string * string))
    (segs : list I18n.Segment) (acc : string) :
  foldr (λ seg acc, I18n.render params seg +:+ acc) acc segs =
  foldr (λ seg acc, I18n.render params seg +:+ acc) "" segs +:+ acc.
Proof.
  induction segs as [|seg segs IH]; cbn [foldr]; [done|].
  by rewrite string_app_assoc, <-IH.
Qed.

(** The rendering of a template that has a placeholder contains the value
    passed for it. *)
Lemma tc_contains_param (locale : I18n.Locale) (key name : string)
    (params : list (string * string)) :
  I18n.Param name ∈ locale key →
  ∃ before after,
    I18n.tc locale key params =
    before +:+ I18n.param_value params name +:+ after.
Proof.
  intros (l1 & l2 & Hsplit)%list_elem_of_split. unfold I18n.tc.
  rewrite Hsplit, foldr_app; simpl. rewrite render_foldr. by eexists _, _.
Qed.

(** C2 (as amended).  When the poll of a task rejects with a not-found
    error, the task's entry is removed from the registry.  When the task's
    meta does not set [ignoreResult] and a handler is found for the task,
    that handler is called with [{ result: {}, message }] whose message, the
    rendering of the not-found template, contains the task's id and is not
    empty; it is called exactly once when it returns on that result, and a
    second time, with the synthetic failure result, when it throws on it.
    When the meta sets [ignoreResult], or no handler is found, no handler is
    called. *)
Theorem not_found_removes_task_and_reports
    (locale : I18n.Locale) (st : State) (task : Task) (m : string) :
  I18n.Param "taskId" ∈ locale "task_manager.not_found" →
  let tc := I18n.tc locale in
  let out := settle tc task (Rejected (TaskNotFoundError m)) st in
  let synthetic := not_found_result tc task in
  tasks out.1 = filter (λ e, e.1 ≠ id_key (task_id task)) (tasks st) ∧
  removed (task_id task) out.1 ∧
  result synthetic = EmptyObject ∧
  message synthetic ≠ "" ∧
  (∃ before after,
     message synthetic = before +:+ id_key (task_id task) +:+ after) ∧
  (truthy (ignoreResult (task_meta task)) = true →
     calls_since st out.1 = []) ∧
  (truthy (ignoreResult (task_meta task)) = false →
     lookup_handler (handler st) task = None →
     calls_since st out.1 = []) ∧
  (∀ h, truthy (ignoreResult (task_meta task)) = false →
     lookup_handler (handler st) task = Some h →
     calls_since st out.1 =
       mkInvocation h synthetic (task_meta task) ::
       match handler_body h synthetic (task_meta task) with
       | None => []
       | Some e => [mkInvocation h (error_result tc task e) (task_meta task)]
       end).
Proof.
  intros Htemplate tc out synthetic.
  assert (Hmessage : ∃ before after,
            message synthetic = before +:+ id_key (task_id task) +:+ after).
  { destruct (tc_contains_param locale "task_manager.not_found" "taskId"
                [("taskId", id_key (task_id task));
                 ("title", title (task_meta task))] Htemplate)
      as (before & after & Heq).
    exists before, after.
    unfold synthetic, not_found_result, tc; cbn [message]. rewrite Heq.
    cbn [I18n.param_value]. by rewrite decide_True. }
  unfold out, settle.
  rewrite on_rejected_not_found_tasks. rewrite on_rejected_not_found.
  fold synthetic.
  set (st1 := commit_remove (task_id task) (commit_unlock (task_id task) st)).
  split_and!; try done.
  - apply handleResult_keeps_removed, removed_after_commit_remove.
  - destruct Hmessage as (before & after & ->).
    apply string_app_nonempty, id_key_ne_empty.
  - intros Hign. rewrite handleResult_ignored by done.
    by apply calls_since_same.
  - intros Hign Hl.
    assert (Hl1 : lookup_handler (handler st1) task = None) by done.
    unfold handleResult. rewrite Hign, Hl1. by apply calls_since_same.
  - intros h Hign Hl.
    assert (Hl1 : lookup_handler (handler st1) task = Some h) by done.
    apply (handleResult_found_calls tc synthetic task st1 h Hign Hl1).
Qed.

End NotFoundFacts.

(** *** The task manager on sample data *)

Section TaskManagerSamples.

Import TaskManager.

(** The second example of the specification: task 9 of type [add_account],
    locked by its poll, whose poll is rejected as not found. *)
Example not_found_example :
  let st :=
    registerHandler "add_account" by_type None
      (with_locked [Some 9%Z] (with_tasks [("9", task9)] empty_state)) in
  let out :=
    settle sample_tc task9
      (Rejected (TaskNotFoundError "Task with id 9 not found")) st in
  tasks out.1 = [] ∧ locked out.1 = [] ∧
  inv_result <$> invocations out.1 =
    [mkActionResult EmptyObject "task_manager.not_found 9 Add account"].
Proof. by vm_compute. Qed.

(** Two passes of [monitor] over the tasks 7 and 9, the poll of task 7
    settling in between: the first pass polls both, the second none. *)
Example monitor_twice_example :
  let first := monitor two_tasks in
  let second :=
    monitor (settle_all sample_tc [(task7, Resolved sample_result)] first.1) in
  task_id <$> first.2 = [Some 7%Z; Some 9%Z] ∧
  locked first.1 = [Some 7%Z; Some 9%Z] ∧
  second.2 = [] ∧
  (tasks second.1).*1 = ["9"].
Proof. by vm_compute. Qed.

(** C1 (as stated) fails: with a handler under [add_account] and another
    under [add_account-9], the result of task 9 goes to the former. *)
Lemma type_id_handler_is_not_preferred :
  handler both_registered !! "add_account" = Some by_type ∧
  handler both_registered !! "add_account-9" = Some by_type_and_id ∧
  (handler_name ∘ inv_handler) <$>
    invocations
      (handleResult sample_tc (Some sample_result) task9 both_registered).1
  = ["by-type"].
Proof. by vm_compute. Qed.

Lemma type_only_handler_takes_precedence_witness :
  truthy (ignoreResult plain_meta) = false ∧
  ∃ rest,
    calls_since both_registered
      (handleResult sample_tc (Some sample_result) task9 both_registered).1 =
      mkInvocation by_type sample_result plain_meta :: rest ∧
    Forall (λ c, inv_handler c = by_type) rest.
Proof.
  split; [reflexivity|].
  apply (proj1 (type_only_handler_takes_precedence sample_tc empty_state
                  "add_account" 9 plain_meta sample_result by_type
                  by_type_and_id eq_refl)).
  by left.
Defined.

(** C2 (as stated) fails.  Task 7 ignores its result: the not-found
    rejection of its poll removes it without calling the handler registered
    for its type.  The handler of task 9 that throws on the not-found report
    is called a second time, with the failure result.  And without handler
    for task 9 the report is dropped with the 'No handler found'
    notification. *)
Lemma not_found_report_is_not_always_one_call :
  let tc := I18n.tc sample_locale in
  (lookup_handler (handler ignoring_registered) task7 = Some by_type ∧
   let out :=
     settle tc task7 (Rejected (TaskNotFoundError "Task with id 7 not found"))
       ignoring_registered in
   tasks out.1 = [] ∧ invocations out.1 = []) ∧
  (let st := registerHandler "add_account" throws_on_not_found None two_tasks in
   let out :=
     settle tc task9 (Rejected (TaskNotFoundError "Task with id 9 not found"))
       st in
   (tasks out.1).*1 = ["7"] ∧
   message ∘ inv_result <$> invocations out.1 =
     ["Task with id 9 and title Add account was not found";
      "An error occurred while processing task [9, Add account]: task is gone"]) ∧
  (lookup_handler (handler two_tasks) task9 = None ∧
   let out :=
     settle tc task9 (Rejected (TaskNotFoundError "Task with id 9 not found"))
       two_tasks in
   (tasks out.1).*1 = ["7"] ∧ invocations out.1 = [] ∧
   n_message <$> notifications out.1 =
     ["No handler found for task 'add_account' with id 9"]).
Proof. by vm_compute. Qed.

Lemma not_found_removes_task_and_reports_witness :
  let tc := I18n.tc sample_locale in
  let st := registerHandler "add_account" by_type None two_tasks in
  let out :=
    settle tc task9 (Rejected (TaskNotFoundError "Task with id 9 not found"))
      st in
  I18n.Param "taskId" ∈ sample_locale "task_manager.not_found" ∧
  removed (Some 9%Z) out.1 ∧
  message (not_found_result tc task9) ≠ "" ∧
  calls_since st out.1 =
    [mkInvocation by_type (not_found_result tc task9) plain_meta].
Proof.
  assert (Htemplate :
    I18n.Param "taskId" ∈ sample_locale "task_manager.not_found").
  { cbn. repeat constructor. }
  pose proof (not_found_removes_task_and_reports sample_locale
    (registerHandler "add_account" by_type None two_tasks) task9
    "Task with id 9 not found" Htemplate)
    as (_ & Hremoved & _ & Hmessage & _ & _ & _ & Hfound).
  split_and!; [done|done|done|].
  exact (Hfound by_type eq_refl eq_refl).
Defined.

Lemma second_monitor_skips_locked_task_witness :
  let others := [(task7, Resolved sample_result)] in
  let first := monitor two_tasks in
  let second := monitor (settle_all sample_tc others first.1) in
  Forall (λ t, task_id t ∈ locked first.1) first.2 ∧
  Forall (λ t, task_id t ≠ Some 9%Z) second.2 ∧
  (length (filter (λ t, task_id t = Some 9%Z) (first.2 ++ second.2)) ≤ 1)%nat.
Proof.
  apply (second_monitor_skips_locked_task sample_tc two_tasks 9
           [(task7, Resolved sample_result)]).
  - split; [|repeat constructor].
    apply (bool_decide_unpack _). by vm_compute.
  - repeat constructor. simpl. discriminate.
Defined.

(** C4 (as stated) fails: two passes over a registry that holds a task
    without identifier emit the diagnostic twice. *)
Lemma null_id_task_is_reported_twice :
  let first := monitor null_registered in
  let second := monitor first.1 in
  n_title <$> notifications first.1 = ["Invalid task found"] ∧
  n_title <$> notifications second.1 =
    ["Invalid task found"; "Invalid task found"] ∧
  n_message <$> notes_since first.1 second.1 =
    ["Task add_account -> Adding 0xabc had a null identifier"].
Proof. by vm_compute. Qed.

Lemma null_id_task_is_reported_on_every_pass_witness :
  filter (λ e, task_id e.2 = None)
    (tasks (settle sample_tc task9 (Resolved sample_result)
              null_registered).1) =
  filter (λ e, task_id e.2 = None) (tasks null_registered).
Proof.
  apply (proj2 (proj2 (proj2 (proj2
    (null_id_task_is_reported_on_every_pass sample_tc null_registered))))).
  - by exists 9%Z.
  - repeat constructor.
Defined.

(** C5.  The code on a handler that throws on the result of task 9 and
    again on the synthetic failure result: the second exception leaves
    [handleResult], which has not removed the task.  The [catch] of the poll
    then only unlocks the task, so that it stays in the registry and the next
    pass of [monitor] polls it again. *)
Lemma rethrowing_handler_keeps_task :
  let st :=
    registerHandler "add_account" always_throws None
      (with_locked [Some 9%Z] two_tasks) in
  let dispatch := handleResult sample_tc (Some sample_result) task9 st in
  dispatch.2 = Some (Error "boom") ∧
  (tasks dispatch.1).*1 = ["7"; "9"] ∧
  inv_result <$> invocations dispatch.1 =
    [sample_result; error_result sample_tc task9 (Error "boom")] ∧
  let out := settle sample_tc task9 (Resolved sample_result) st in
  (tasks out.1).*1 = ["7"; "9"] ∧
  locked out.1 = [] ∧
  handler_name ∘ inv_handler <$> invocations out.1 =
    ["always-throws"; "always-throws"] ∧
  task_id <$> (monitor out.1).2 = [Some 7%Z; Some 9%Z].
Proof. by vm_compute. Qed.

Lemma handler_exception_is_redelivered_witness :
  let st := registerHandler "add_account" throws_on_success None two_tasks in
  let failure := error_result sample_tc task9 (Error "cannot read result") in
  let out := handleResult sample_tc (Some sample_result) task9 st in
  calls_since st out.1 =
    [mkInvocation throws_on_success sample_result plain_meta;
     mkInvocation throws_on_success failure plain_meta] ∧
  out.2 = None ∧ removed (Some 9%Z) out.1.
Proof.
  pose proof (handler_exception_is_redelivered sample_tc
    (registerHandler "add_account" throws_on_success None two_tasks)
    task9 sample_result throws_on_success (Error "cannot read result")
    eq_refl eq_refl eq_refl) as (Hcalls & _ & _ & Hret & _).
  destruct (Hret eq_refl) as (Hnone & Hremoved & _).
  by split_and!.
Defined.


Lemma ignored_result_only_removes_task_witness :
  let out :=
    settle sample_tc task7 (Resolved sample_result) ignoring_registered in
  out.2 = None ∧ removed (Some 7%Z) out.1 ∧
  calls_since ignoring_registered out.1 = [] ∧
  notes_since ignoring_registered out.1 = [].
Proof.
  pose proof (ignored_result_only_removes_task sample_tc task7
    ignoring_registered sample_result "" (Resolved sample_result)
    eq_refl (or_introl eq_refl))
    as (Hnone & _ & Hremoved & Hcalls & Hnotes & _).
  by split_and!.
Defined.

End TaskManagerSamples.

(** ** The API client *)

Section ApiFacts.

Import Api.

Variable validTaskStatus : Z → bool.
Variable handleResponse : AxiosResponse → Outcome TaskResult.
Variable setupTransformer : list string → string → TaskEnvelope.
Variable defaultTransformResponse : string → TaskEnvelope.

Abbreviation query :=
  (queryTaskResult validTaskStatus handleResponse setupTransformer
     defaultTransformResponse).
Abbreviation transform :=
  (transformer setupTransformer defaultTransformResponse).

(** C8.  Provided the endpoint's status predicate accepts 404 and the
    envelope helper throws no [TaskNotFoundError] of its own,
    [queryTaskResult] rejects with a [TaskNotFoundError] exactly when the
    endpoint answers with status 404.  For an accepted response with another
    status (a 2xx one in particular) whose envelope the helper unwraps, it
    resolves with the [outcome] when there is one and rejects with
    [Error('No result')] when there is none. *)
Theorem queryTaskResult_outcomes
    (id : Z) (numericKeys : option (list string)) (reply : HttpReply) :
  validTaskStatus 404 = true →
  (∀ response e, handleResponse response = Rejected e →
     instanceof_TaskNotFoundError e = false) →
  ((∃ m, query id numericKeys reply = Rejected (TaskNotFoundError m)) ↔
   (∃ body, reply = Response 404 body)) ∧
  (∀ body, reply = Response 404 body →
     query id numericKeys reply =
       Rejected (TaskNotFoundError
                   ("Task with id " +:+ pretty id +:+ " not found"))) ∧
  (∀ st body value,
     reply = Response st body → st ≠ 404%Z → validTaskStatus st = true →
     handleResponse (mkAxiosResponse st (transform numericKeys body))
       = Resolved value →
     query id numericKeys reply =
       match outcome value with
       | Some o => Resolved o
       | None => Rejected (Error "No result")
       end).
Proof.
  intros H404 Hhelper.
  assert (Hfound : ∀ body, reply = Response 404 body →
     query id numericKeys reply =
       Rejected (TaskNotFoundError
                   ("Task with id " +:+ pretty id +:+ " not found"))).
  { intros body ->. unfold queryTaskResult, axios_get. by rewrite H404. }
  split_and!.
  - split.
    + intros [m Hq]. destruct reply as [reason|st body].
      { by unfold queryTaskResult, axios_get in Hq. }
      destruct (decide (st = 404%Z)) as [->|Hne]; [by eexists|].
      exfalso. unfold queryTaskResult, axios_get in Hq.
      destruct (validTaskStatus st); [|done].
      simpl in Hq. unfold mbind, Outcome_bind in Hq. simpl in Hq.
      destruct (decide (st = 404%Z)); [done|].
      destruct (handleResponse _) as [value|e] eqn:Hh.
      * by destruct (outcome value).
      * apply Hhelper in Hh. by simplify_eq.
    + intros [body Hreply]. eexists. by eapply Hfound.
  - done.
  - intros st body value -> Hne Hvalid Hunwrap.
    unfold queryTaskResult, axios_get. rewrite Hvalid.
    unfold mbind, Outcome_bind; simpl.
    destruct (decide (st = 404%Z)); [done|]. by rewrite Hunwrap.
Qed.

End ApiFacts.

Lemma queryTaskResult_outcomes_witness :
  let query :=
    Api.queryTaskResult sample_validTaskStatus sample_handleResponse
      (λ _, sample_transform) sample_transform in
  query 9%Z None (Api.Response 404 "") =
    Rejected (TaskNotFoundError "Task with id 9 not found") ∧
  query 9%Z None (Api.Response 200 "completed") = Resolved sample_result ∧
  query 9%Z None (Api.Response 200 "pending") = Rejected (Error "No result").
Proof.
  assert (Hhelper : ∀ response e,
            sample_handleResponse response = Rejected e →
            instanceof_TaskNotFoundError e = false).
  { intros response e. unfold sample_handleResponse.
    destruct (Api.env_result _); [done|]. by intros [= <-]. }
  split_and!.
  - apply (proj1 (proj2 (queryTaskResult_outcomes sample_validTaskStatus
      sample_handleResponse (λ _, sample_transform) sample_transform 9 None
      (Api.Response 404 "") eq_refl Hhelper)) "" eq_refl).
  - apply (proj2 (proj2 (queryTaskResult_outcomes sample_validTaskStatus
      sample_handleResponse (λ _, sample_transform) sample_transform 9 None
      (Api.Response 200 "completed") eq_refl Hhelper))
      200%Z "completed"
      (Api.mkTaskResult (Some sample_result) "completed") eq_refl);
      [done|reflexivity|reflexivity].
  - apply (proj2 (proj2 (queryTaskResult_outcomes sample_validTaskStatus
      sample_handleResponse (λ _, sample_transform) sample_transform 9 None
      (Api.Response 200 "pending") eq_refl Hhelper))
      200%Z "pending" (Api.mkTaskResult None "pending") eq_refl);
      [done|reflexivity|reflexivity].
Defined.

(** ** The balance store *)

Section BalancesFacts.

Import Balances.

Lemma indexOf_from_absent (i : Z) (l : list string) (x : string) :
  x ∉ l → indexOf_from i l x = (-1)%Z.
Proof.
  revert i. induction l as [|y l IH]; intros i Hx; [done|].
  apply not_elem_of_cons in Hx as [Hne Hx]. simpl.
  case_decide; [by subst|]. by apply IH.
Qed.

Lemma indexOf_from_present (i : Z) (l : list string) (x : string) :
  x ∈ l → (0 ≤ i)%Z → (0 ≤ indexOf_from i l x)%Z.
Proof.
  revert i. induction l as [|y l IH]; intros i Hx Hi.
  { by apply elem_of_nil in Hx. }
  simpl. case_decide as Hy; [done|].
  apply elem_of_cons in Hx as [->|Hx]; [done|]. apply IH; [done|lia].
Qed.

Lemma removeTag_absent (l : list string) (tagName : string) :
  tagName ∉ l → removeTag (Some l) tagName = None.
Proof.
  intros Hx. unfold removeTag, indexOf. rewrite indexOf_from_absent by done.
  by case_decide.
Qed.

Lemma removeTag_present (l : list string) (tagName : string) :
  tagName ∈ l → is_Some (removeTag (Some l) tagName).
Proof.
  intros Hx. unfold removeTag, indexOf.
  pose proof (indexOf_from_present 0 l tagName Hx). case_decide; [lia|eauto].
Qed.

Lemma removeTag_not_carried (tags : option (list string)) (tagName : string) :
  ¬ carries tags tagName → removeTag tags tagName = None.
Proof.
  intros Hnot. destruct tags as [l|]; [|done].
  apply removeTag_absent. intros Hin. apply Hnot. by exists l.
Qed.

(** The indexed loop of [removeTags] rewrites each account on its own. *)
Lemma removeTags_loop `{HasTags T} (tagName : string) (pre rest : list T) :
  foldl (removeTags_step tagName) (pre ++ rest)
    (seq (length pre) (length rest)) =
  pre ++ (removeTags_account tagName <$> rest).
Proof.
  revert pre. induction rest as [|x rest IH]; intros pre; [done|].
  cbn [length seq foldl]. unfold removeTags_step at 2.
  rewrite list_lookup_middle by done.
  rewrite fmap_cons.
  assert (Hx : removeTags_account tagName x =
               match removeTag (tags_of x) tagName with
               | Some tags => update_tags tags x
               | None => x
               end) by done.
  rewrite Hx. clear Hx.
  destruct (removeTag (tags_of x) tagName) as [tags|].
  - assert (Hins : <[length pre := update_tags tags x]> (pre ++ x :: rest) =
                   (pre ++ [update_tags tags x]) ++ rest).
    { replace (length pre) with (length pre + 0)%nat by lia.
      rewrite insert_app_r. simpl. by rewrite <-app_assoc. }
    rewrite Hins.
    replace (S (length pre)) with (length (pre ++ [update_tags tags x]))
      by (rewrite length_app; simpl; lia).
    rewrite IH. by rewrite <-app_assoc.
  - replace (pre ++ x :: rest) with ((pre ++ [x]) ++ rest)
      by (by rewrite <-app_assoc).
    replace (S (length pre)) with (length (pre ++ [x]))
      by (rewrite length_app; simpl; lia).
    rewrite IH. by rewrite <-app_assoc.
Qed.

Lemma removeTags_map `{HasTags T} (data : list T) (tagName : string) :
  removeTags data tagName = removeTags_account tagName <$> data.
Proof. apply (removeTags_loop tagName [] data). Qed.

Lemma removeTags_keeps_untagged (data : list GeneralAccountData)
    (tagName : string) (i : nat) (a : GeneralAccountData) :
  data !! i = Some a → ¬ carries (ga_tags a) tagName →
  removeTags data tagName !! i = Some a.
Proof.
  intros Hi Hnot. rewrite removeTags_map, list_lookup_fmap, Hi. simpl.
  unfold removeTags_account. simpl. by rewrite removeTag_not_carried.
Qed.

(** C10.  [removeTag] returns [null] for a [null] list and for a list that
    does not hold the tag.  So the action [removeTag] sets to [null] the
    tags of every xpub account that does not carry the tag, whatever other
    tags it had, while the eth accounts, the standalone btc accounts and
    the addresses of an xpub that do not carry the tag stay as they
    were. *)
Theorem removeTag_nulls_tags_of_untagged_xpubs
    (state : BalanceState) (tagName : string) :
  removeTag None tagName = None ∧
  (∀ l, tagName ∉ l → removeTag (Some l) tagName = None) ∧
  let state' := actions.removeTag state tagName in
  (∀ i x,
     xpubs (btcAccounts state) !! i = Some x →
     ¬ carries (xp_tags x) tagName →
     ∃ x', xpubs (btcAccounts state') !! i = Some x' ∧
           xp_tags x' = None ∧
           xp_xpub x' = xp_xpub x ∧
           xp_derivationPath x' = xp_derivationPath x ∧
           xp_label x' = xp_label x) ∧
  (∀ i a,
     ethAccounts state !! i = Some a → ¬ carries (ga_tags a) tagName →
     ethAccounts state' !! i = Some a) ∧
  (∀ i a,
     standalone (btcAccounts state) !! i = Some a →
     ¬ carries (ga_tags a) tagName →
     standalone (btcAccounts state') !! i = Some a) ∧
  (∀ i x l j a,
     xpubs (btcAccounts state) !! i = Some x →
     xp_addresses x = Some l → l !! j = Some a →
     ¬ carries (ga_tags a) tagName →
     ∃ x' l', xpubs (btcAccounts state') !! i = Some x' ∧
              xp_addresses x' = Some l' ∧ l' !! j = Some a).
Proof.
  split; [done|]. split; [intros l; apply removeTag_absent|].
  intros state'. unfold state'. split_and!.
  - intros i x Hi Hnot. exists (removeTag_xpub tagName x).
    unfold actions.removeTag; simpl. rewrite list_lookup_fmap, Hi. simpl.
    by rewrite removeTag_not_carried.
  - intros i a Hi Hnot. unfold actions.removeTag; simpl.
    by apply removeTags_keeps_untagged.
  - intros i a Hi Hnot. unfold actions.removeTag; simpl.
    by apply removeTags_keeps_untagged.
  - intros i x l j a Hi Hl Hj Hnot.
    exists (removeTag_xpub tagName x), (removeTags l tagName).
    unfold actions.removeTag; simpl. rewrite list_lookup_fmap, Hi. simpl.
    rewrite Hl. split_and!; try done. by apply removeTags_keeps_untagged.
Qed.

End BalancesFacts.

Lemma removeTag_nulls_tags_of_untagged_xpubs_witness :
  let state' := Balances.actions.removeTag sample_balances "cold" in
  (∃ x', Balances.xpubs (Balances.btcAccounts state') !! 0%nat = Some x' ∧
         Balances.xp_tags x' = None ∧
         Balances.xp_xpub x' = "xpub6C" ∧
         Balances.xp_derivationPath x' = "m/0" ∧
         Balances.xp_label x' = "savings") ∧
  Balances.ethAccounts state' !! 1%nat = Some account_b.
Proof.
  pose proof (removeTag_nulls_tags_of_untagged_xpubs sample_balances "cold")
    as (_ & _ & Hxpub & Heth & _).
  split.
  - apply (Hxpub 0%nat xpub_c eq_refl).
    intros (l & [= <-] & Hin). revert Hin.
    apply (bool_decide_unpack _). by vm_compute.
  - apply (Heth 1%nat account_b eq_refl).
    intros (l & [= <-] & Hin). revert Hin.
    apply (bool_decide_unpack _). by vm_compute.
Defined.

(** ** The account actions *)

Section AccountActionFacts.

Import Balances Balances.actions.

Variable tc : string → list (string * string) → string.
Variable blockchainBalanceKeys : list string.
Variable api : Settlements.

Abbreviation guarded taskType keys payload taskId :=
  (try_catch
     (track_account_task tc blockchainBalanceKeys api taskType keys payload
        taskId)
     (notify_account_error tc keys payload)).

(** The [try]/[catch] of [addAccount] and [removeAccount] from the creation
    of the task on: the action completes, a failure of the task leaves the
    balances and the defi module alone, and each failure is notified. *)
Lemma guarded_task_outcome (taskType : TaskType) (keys : string)
    (payload : BlockchainAccountPayload) (taskId : Z) (w : RootState) :
  let out := guarded taskType keys payload taskId w in
  out.2 = Resolved tt ∧
  (∀ e, taskCompletion api taskType None = Rejected e →
     balances out.1 = balances w ∧ defi out.1 = defi w ∧
     notices out.1 = notices w ++ [account_error_notice tc keys payload e]) ∧
  (∀ r e, taskCompletion api taskType None = Resolved r →
     resetDefiStatus api = Rejected e →
     notices out.1 = notices w ++ [account_error_notice tc keys payload e]) ∧
  (∀ r, taskCompletion api taskType None = Resolved r →
     resetDefiStatus api = Resolved tt →
     notices out.1 = notices w).
Proof.
  unfold try_catch, track_account_task, notify_account_error, updateBalances,
    account_error_notice, mbind, Action_bind, await, commit_tasks_add,
    commit_defi_reset, dispatch_detached, notify, when, commit; simpl.
  destruct (taskCompletion api taskType None) as [r|e]; simpl.
  - destruct (p_blockchain payload); simpl;
      destruct (resetDefiStatus api) as [[]|e]; simpl;
      split_and!; try done; intros; by simplify_eq.
  - split_and!; try done. intros ? [= <-]. done.
Qed.

(** The initial request of [removeAccount] is awaited before the [try]
    block: when it is rejected, the rejection is the outcome of the action
    and the store is as before, without notification. *)
Lemma removeAccount_initial_rejection_escapes
    (payload : BlockchainAccountPayload) (w : RootState) (e : JsError) :
  removeBlockchainAccount api (p_blockchain payload) (p_address payload)
    = Rejected e →
  removeAccount tc blockchainBalanceKeys api payload w = (w, Rejected e).
Proof.
  intros He. unfold removeAccount, mbind, Action_bind, await. by rewrite He.
Qed.

(** What the [try] blocks catch.  [addAccount], whose whole body is inside
    [try], completes without exception and emits one error notification on
    each failure; so does [removeAccount] once its request was accepted.
    When the failure is the rejection of [addAccount]'s API call the store
    is otherwise untouched; when it is the failure of the task the balances
    and the defi module are as before. *)
Lemma guarded_account_failures_are_notified
    (payload : BlockchainAccountPayload) (w : RootState) :
  let add_keys := "actions.balances.blockchain_account_add" in
  let remove_keys := "actions.balances.blockchain_account_removal" in
  let add := addAccount tc blockchainBalanceKeys api payload w in
  let remove := removeAccount tc blockchainBalanceKeys api payload w in
  add.2 = Resolved tt ∧
  (∀ e, addBlockchainAccount api payload = Rejected e →
     add.1 =
       mkRootState (balances w) (defi w) (registry w)
         (notices w ++ [account_error_notice tc add_keys payload e])
         (spawned w)) ∧
  (∀ taskId e,
     addBlockchainAccount api payload = Resolved taskId →
     taskCompletion api ADD_ACCOUNT None = Rejected e →
     balances add.1 = balances w ∧ defi add.1 = defi w ∧
     notices add.1 =
       notices w ++ [account_error_notice tc add_keys payload e]) ∧
  (∀ taskId r e,
     addBlockchainAccount api payload = Resolved taskId →
     taskCompletion api ADD_ACCOUNT None = Resolved r →
     resetDefiStatus api = Rejected e →
     notices add.1 =
       notices w ++ [account_error_notice tc add_keys payload e]) ∧
  (∀ taskId,
     removeBlockchainAccount api (p_blockchain payload) (p_address payload)
       = Resolved taskId →
     remove.2 = Resolved tt ∧
     (∀ e, taskCompletion api REMOVE_ACCOUNT None = Rejected e →
        balances remove.1 = balances w ∧ defi remove.1 = defi w ∧
        notices remove.1 =
          notices w ++ [account_error_notice tc remove_keys payload e]) ∧
     (∀ r e, taskCompletion api REMOVE_ACCOUNT None = Resolved r →
        resetDefiStatus api = Rejected e →
        notices remove.1 =
          notices w ++ [account_error_notice tc remove_keys payload e])).
Proof.
  intros add_keys remove_keys add remove.
  assert (Hadd_ok : ∀ taskId,
            addBlockchainAccount api payload = Resolved taskId →
            add = guarded ADD_ACCOUNT add_keys payload taskId w).
  { intros taskId Hid. unfold add, addAccount, try_catch.
    unfold mbind at 1. unfold Action_bind, await. by rewrite Hid. }
  assert (Hrem_ok : ∀ taskId,
            removeBlockchainAccount api (p_blockchain payload)
              (p_address payload) = Resolved taskId →
            remove = guarded REMOVE_ACCOUNT remove_keys payload taskId w).
  { intros taskId Hid. unfold remove, removeAccount.
    unfold mbind at 1. unfold Action_bind, await. by rewrite Hid. }
  split_and!.
  - destruct (addBlockchainAccount api payload) as [taskId|e] eqn:Hid.
    + rewrite (Hadd_ok taskId eq_refl). apply guarded_task_outcome.
    + unfold add, addAccount, try_catch. unfold mbind at 1.
      unfold Action_bind, await. by rewrite Hid.
  - intros e Hid. unfold add, addAccount, try_catch. unfold mbind at 1.
    unfold Action_bind, await. by rewrite Hid.
  - intros taskId e Hid Htask. rewrite (Hadd_ok taskId Hid).
    by apply guarded_task_outcome.
  - intros taskId r e Hid Htask Hreset. rewrite (Hadd_ok taskId Hid).
    by eapply guarded_task_outcome.
  - intros taskId Hid. rewrite (Hrem_ok taskId Hid).
    pose proof (guarded_task_outcome REMOVE_ACCOUNT remove_keys payload
                  taskId w) as (Hok & Htask & Hreset & _).
    by split_and!.
Qed.

End AccountActionFacts.

(** [addAccount] on a backend where every call succeeds: the task is
    registered, the balances of the chain and the totals are committed, the
    defi module is reset and nothing is notified. *)
Example addAccount_success_example :
  let out :=
    Balances.actions.addAccount sample_tc [] all_succeed eth_payload
      sample_store in
  out.2 = Resolved tt ∧
  Balances.actions.notices out.1 = [] ∧
  task_id <$> Balances.actions.registry out.1 = [Some 9%Z] ∧
  Balances.eth (Balances.actions.balances out.1) = Data "eth2" ∧
  Balances.btc (Balances.actions.balances out.1) = Data "btc" ∧
  Balances.totals (Balances.actions.balances out.1) = Data "totals2" ∧
  Balances.actions.defi out.1 = EmptyObject ∧
  Balances.actions.spawned out.1 = ["accounts"].
Proof. by vm_compute. Qed.

(** [editAccount] has no [try]: the rejection of its request is the outcome
    of the action and nothing is notified.  And a failure of the last step
    of [addAccount] is notified after the balances and the defi module were
    committed. *)
Lemma unguarded_and_late_failures :
  Balances.actions.editAccount backend_down eth_payload sample_store =
    (sample_store, Rejected (Error "backend unreachable")) ∧
  let out :=
    Balances.actions.addAccount sample_tc [] reset_fails eth_payload
      sample_store in
  out.2 = Resolved tt ∧
  n_severity <$> Balances.actions.notices out.1 = [ERROR] ∧
  Balances.eth (Balances.actions.balances sample_store) = Data "eth" ∧
  Balances.eth (Balances.actions.balances out.1) = Data "eth2" ∧
  Balances.actions.defi sample_store = Data "defi" ∧
  Balances.actions.defi out.1 = EmptyObject.
Proof. by vm_compute. Qed.

Lemma guarded_account_failures_are_notified_witness :
  let out :=
    Balances.actions.addAccount sample_tc [] task_fails eth_payload
      sample_store in
  Balances.actions.balances out.1 = Balances.actions.balances sample_store ∧
  Balances.actions.defi out.1 = Balances.actions.defi sample_store ∧
  Balances.actions.notices out.1 =
    Balances.actions.notices sample_store ++
    [Balances.actions.account_error_notice sample_tc
       "actions.balances.blockchain_account_add" eth_payload
       (Error "account exists")].
Proof.
  apply (proj1 (proj2 (proj2
    (guarded_account_failures_are_notified sample_tc [] task_fails
       eth_payload sample_store))) 9%Z (Error "account exists")
    eq_refl eq_refl).
Defined.

(** C6.  The code on a backend that refuses every request: the request of
    [removeAccount], awaited before its [try], rejects the action, and the
    store is as before, without notification.  On the same backend
    [addAccount] and [deleteXpub], which await their request inside [try],
    complete and notify the error. *)
Lemma removeAccount_on_backend_down :
  Balances.actions.removeAccount sample_tc [] backend_down eth_payload
    sample_store =
  (sample_store, Rejected (Error "backend unreachable")) ∧
  (let out :=
     Balances.actions.addAccount sample_tc [] backend_down eth_payload
       sample_store in
   out.2 = Resolved tt ∧
   Balances.actions.balances out.1 = Balances.actions.balances sample_store ∧
   Balances.actions.notices out.1 =
     Balances.actions.notices sample_store ++
     [Balances.actions.account_error_notice sample_tc
        "actions.balances.blockchain_account_add" eth_payload
        (Error "backend unreachable")]) ∧
  (let out :=
     Xpub.deleteXpub sample_tc [] xpub_refused
       (Xpub.mkXpubPayload "xpub6C" "m/0") sample_store in
   out.2 = Resolved tt ∧
   n_severity <$> Balances.actions.notices out.1 =
     (n_severity <$> Balances.actions.notices sample_store) ++ [ERROR]).
Proof. by vm_compute. Qed.

(** * Further properties of the task manager *)

Section TaskManagerMoreFacts.

Import TaskManager.

Variable tc : string → list (string * string) → string.

Implicit Types (st : State) (task : Task) (id : TaskId).

(** X1.  A pass of [monitor] polls exactly the tasks that have an
    identifier not found in the locked array, in the order of the registry,
    and appends exactly their identifiers to the locked array; it leaves the
    registry, the handlers and the call log alone.  After the pass every
    task of the registry that has an identifier is locked. *)
Theorem monitor_polls_unlocked_tasks_in_order (st : State) :
  let out := monitor st in
  out.2 = filter (pollable (locked st)) (tasks st).*2 ∧
  locked out.1 = locked st ++ (task_id <$> out.2) ∧
  tasks out.1 = tasks st ∧
  handler out.1 = handler st ∧
  invocations out.1 = invocations st ∧
  (∀ t, t ∈ (tasks st).*2 → is_Some (task_id t) →
        task_id t ∈ locked out.1).
Proof.
  intros out. destruct (monitor_spec tc st) as (Ht & Hh & Hi & Hp & Hl & _).
  fold out in Ht, Hh, Hi, Hp, Hl. split_and!; try done.
  intros t Hin Hsome. rewrite Hl. apply elem_of_app.
  destruct (decide (task_id t ∈ locked st)) as [Hlocked|Hfree]; [by left|].
  right. apply list_elem_of_fmap_2. rewrite Hp.
  apply list_elem_of_filter. by split.
Qed.

(** X2.  When the poll of a task resolves, the task does not ignore its
    result, and the handler found for it returns, the handler is called
    exactly once, with the result and the task's meta; the task's entry is
    removed from the registry and nothing else is, and the chain of the poll
    is fulfilled. *)
Theorem successful_result_is_dispatched_once
    (st : State) (task : Task) (r : ActionResult) (h : Handler) :
  truthy (ignoreResult (task_meta task)) = false →
  lookup_handler (handler st) task = Some h →
  handler_body h r (task_meta task) = None →
  let out := settle tc task (Resolved r) st in
  out.2 = None ∧
  calls_since st out.1 = [mkInvocation h r (task_meta task)] ∧
  tasks out.1 = filter (λ e, e.1 ≠ id_key (task_id task)) (tasks st).
Proof.
  intros Hign Hl Hret out. unfold out, settle.
  pose proof (handleResult_found tc r task st h Hign Hl) as Hout.
  cbn zeta in Hout. rewrite Hret in Hout. rewrite Hout. simpl.
  split_and!; try done.
  by apply calls_since_app.
Qed.

Lemma settle_failed_poll task e st :
  instanceof_TaskNotFoundError e = false →
  settle tc task (Rejected e) st = (commit_unlock (task_id task) st, None).
Proof. intros He. unfold settle, on_rejected. by rewrite He. Qed.

(** X3.  When the poll of a task rejects with anything but a not-found
    error (the task is pending, the request failed), the task stays in the
    registry, its identifier leaves the locked array while the other locks
    stay, no handler is called and nothing is notified; the next pass of
    [monitor] polls the task again. *)
Theorem failed_poll_is_retried
    (st : State) (task : Task) (e : JsError) (k : string) :
  instanceof_TaskNotFoundError e = false →
  is_Some (task_id task) →
  (k, task) ∈ tasks st →
  let out := settle tc task (Rejected e) st in
  out.2 = None ∧
  tasks out.1 = tasks st ∧
  (task_id task ∉ locked out.1) ∧
  (∀ id, id ≠ task_id task → id ∈ locked out.1 ↔ id ∈ locked st) ∧
  calls_since st out.1 = [] ∧
  notes_since st out.1 = [] ∧
  task ∈ (monitor out.1).2.
Proof.
  intros He Hsome Hin out. unfold out. rewrite settle_failed_poll by done.
  cbn [fst snd].
  assert (Hfree : task_id task ∉ locked (commit_unlock (task_id task) st)).
  { unfold commit_unlock; simpl. by intros [? _]%list_elem_of_filter. }
  split_and!; try done.
  - intros id Hne. unfold commit_unlock; simpl.
    rewrite list_elem_of_filter. split; [by intros [_ ?]|by split].
  - by apply calls_since_same.
  - by apply notes_since_same.
  - destruct (monitor_spec tc (commit_unlock (task_id task) st))
      as (_ & _ & _ & -> & _).
    apply list_elem_of_filter. split; [by split|].
    apply list_elem_of_fmap. by exists (k, task).
Qed.

(** X4.  When the handler found for a task throws on the result and throws
    again on the synthetic failure result, and the second exception is not a
    [TaskNotFoundError], the [catch] of the poll swallows it: the chain is
    fulfilled, the handler has been called twice, and the task is still in
    the registry, unlocked, so that later passes poll it again. *)
Theorem twice_throwing_handler_leaves_task_for_retry
    (st : State) (task : Task) (r : ActionResult) (h : Handler)
    (e e2 : JsError) :
  truthy (ignoreResult (task_meta task)) = false →
  lookup_handler (handler st) task = Some h →
  handler_body h r (task_meta task) = Some e →
  handler_body h (error_result tc task e) (task_meta task) = Some e2 →
  instanceof_TaskNotFoundError e2 = false →
  let out := settle tc task (Resolved r) st in
  out.2 = None ∧
  tasks out.1 = tasks st ∧
  (task_id task ∉ locked out.1) ∧
  calls_since st out.1 =
    [mkInvocation h r (task_meta task);
     mkInvocation h (error_result tc task e) (task_meta task)].
Proof.
  intros Hign Hl He He2 Hnf out. unfold out, settle.
  pose proof (handleResult_found tc r task st h Hign Hl) as Hout.
  cbn zeta in Hout. rewrite He, He2 in Hout. rewrite Hout.
  unfold on_rejected. rewrite Hnf. cbn [fst snd].
  split_and!; try done.
  - unfold commit_unlock; simpl. by intros [? _]%list_elem_of_filter.
  - apply calls_since_app. simpl. by rewrite <-app_assoc.
Qed.

(** X5.  A handler registered for a type without task id is the one found
    for every task of that type, whatever its id and whatever was registered
    before; registering again under the same key replaces the handler; and
    registering or unregistering under a key leaves the lookup of every task
    whose two keys differ from it as it was. *)
Theorem registration_serves_its_key_only
    (st : State) (T : TaskType) (h h' : Handler) (taskId : option string) :
  (∀ task, task_type task = T →
     lookup_handler (handler (registerHandler T h None st)) task = Some h) ∧
  registerHandler T h' taskId (registerHandler T h taskId st) =
    registerHandler T h' taskId st ∧
  (∀ task,
     task_type task ≠ identifier T taskId →
     task_type task +:+ "-" +:+ id_key (task_id task) ≠ identifier T taskId →
     lookup_handler (handler (registerHandler T h taskId st)) task =
       lookup_handler (handler st) task ∧
     lookup_handler (handler (unregisterHandler T taskId st)) task =
       lookup_handler (handler st) task).
Proof.
  split_and!.
  - intros task <-. unfold lookup_handler, registerHandler; simpl.
    by rewrite lookup_insert_eq.
  - unfold registerHandler, with_handler; simpl. by rewrite insert_insert_eq.
  - intros task Hne1 Hne2.
    unfold lookup_handler, registerHandler, unregisterHandler; simpl.
    by rewrite !lookup_insert_ne, !lookup_delete_ne.
Qed.

End TaskManagerMoreFacts.

(** ** Polling rounds *)

Lemma filter_not_elem_of_cons {A} `{EqDecision A} (p : A) (ps l : list A) :
  filter (λ x, x ∉ ps) (filter (λ x, x ≠ p) l) = filter (λ x, x ∉ p :: ps) l.
Proof.
  induction l as [|x l IH]; [done|].
  destruct (decide (x = p)) as [->|Hne].
  - rewrite (filter_cons_False (λ x, x ≠ p)) by tauto.
    rewrite (filter_cons_False (λ x, x ∉ p :: ps)); [done|].
    intros Hnot. apply Hnot. by left.
  - rewrite (filter_cons_True (λ x, x ≠ p)) by done.
    destruct (decide (x ∈ ps)) as [Hin|Hnotin].
    + rewrite (filter_cons_False (λ x, x ∉ ps)) by tauto.
      rewrite (filter_cons_False (λ x, x ∉ p :: ps)); [done|].
      intros Hnot. apply Hnot. by right.
    + rewrite (filter_cons_True (λ x, x ∉ ps)) by done.
      rewrite (filter_cons_True (λ x, x ∉ p :: ps)); [by rewrite IH|].
      by intros [?|?]%elem_of_cons.
Qed.

Lemma filter_all {A} (P : A → Prop) `{!∀ x, Decision (P x)} (l : list A) :
  Forall P l → filter P l = l.
Proof.
  induction 1 as [|x l Hx _ IH]; [done|].
  by rewrite filter_cons_True, IH.
Qed.

Section PollingFacts.

Import TaskManager.

Variable tc : string → list (string * string) → string.
Variable validTaskStatus : Z → bool.
Variable handleResponse : Api.AxiosResponse → Outcome Api.TaskResult.
Variable setupTransformer : list string → string → Api.TaskEnvelope.
Variable defaultTransformResponse : string → Api.TaskEnvelope.

Abbreviation fetch :=
  (Api.queryTaskResult validTaskStatus handleResponse setupTransformer
     defaultTransformResponse).
Abbreviation query :=
  (Polling.query validTaskStatus handleResponse setupTransformer
     defaultTransformResponse).
Abbreviation round :=
  (Polling.round tc validTaskStatus handleResponse setupTransformer
     defaultTransformResponse).

(** Settling polls that all failed without a not-found error only takes
    their identifiers out of the locked array. *)
Lemma settle_all_failed (events : list (Task * Outcome ActionResult))
    (st : State) :
  Forall (λ ev, ∃ e, ev.2 = Rejected e ∧
                     instanceof_TaskNotFoundError e = false) events →
  let st' := settle_all tc events st in
  tasks st' = tasks st ∧ handler st' = handler st ∧
  invocations st' = invocations st ∧ notifications st' = notifications st ∧
  locked st' = filter (λ x, x ∉ (task_id ∘ fst <$> events)) (locked st).
Proof.
  revert st. induction events as [|[task reply] rest IH]; intros st Hall.
  { simpl. split_and!; try done. symmetry. apply filter_all, Forall_forall.
    intros x _. apply not_elem_of_nil. }
  apply Forall_cons in Hall as [(e & Hreply & Hnf) Hall]. simpl in Hreply.
  subst reply. cbn [settle_all]. rewrite settle_failed_poll by done.
  cbn [fst]. destruct (IH (commit_unlock (task_id task) st) Hall)
    as (Ht & Hh & Hi & Hn & Hl).
  split_and!; try done.
  rewrite Hl, fmap_cons. unfold commit_unlock; simpl.
  apply filter_not_elem_of_cons.
Qed.

Lemma query_events (reply : Z → Api.HttpReply) (polls : list Task) :
  Forall (λ t, is_Some (task_id t)) polls →
  task_id ∘ fst <$> omap (query reply) polls = task_id <$> polls.
Proof.
  induction 1 as [|t polls [n Hn] _ IH]; [done|].
  cbn [omap list_omap]. unfold Polling.query at 1. rewrite Hn. simpl.
  rewrite Hn. f_equal. exact IH.
Qed.

(** X6.  A round in which the poll of every task fails without a not-found
    error, as it does while the tasks are pending, leaves the registry, the
    locked array, the handlers and the call log exactly as they were and
    calls no handler; it only repeats the diagnostic for the tasks without
    identifier.  The next round therefore polls the same tasks again. *)
Theorem round_of_pending_tasks_changes_nothing
    (reply : Z → Api.HttpReply) (st : State) :
  (∀ t n, t ∈ (tasks st).*2 → task_id t = Some n →
     ∃ e, fetch n (numericKeys (task_meta t)) (reply n) = Rejected e ∧
          instanceof_TaskNotFoundError e = false) →
  let st' := round reply st in
  tasks st' = tasks st ∧
  locked st' = locked st ∧
  handler st' = handler st ∧
  invocations st' = invocations st ∧
  notifications st' =
    notifications st ++
    (null_identifier_notice <$>
       filter (λ t, task_id t = None) (tasks st).*2) ∧
  (monitor st').2 = (monitor st).2.
Proof.
  intros Hpending st'.
  destruct (monitor_spec tc st) as (Ht & Hh & Hi & Hp & Hl & Hn).
  assert (Hsome : Forall (λ t, is_Some (task_id t)) (monitor st).2).
  { rewrite Hp. apply Forall_forall.
    by intros t [[? _] _]%list_elem_of_filter. }
  assert (Hfailed :
    Forall (λ ev, ∃ e, ev.2 = Rejected e ∧
                       instanceof_TaskNotFoundError e = false)
      (omap (query reply) (monitor st).2)).
  { apply Forall_forall. intros [t out] Hev.
    apply list_elem_of_omap in Hev as (t' & Hin & Hq).
    unfold Polling.query in Hq.
    destruct (task_id t') as [n|] eqn:Hid; [|done]. simpl in Hq.
    injection Hq as <- <-. simpl. apply (Hpending t' n); [|done].
    rewrite Hp in Hin. by apply list_elem_of_filter in Hin as [_ ?]. }
  destruct (settle_all_failed _ (monitor st).1 Hfailed)
    as (Ht' & Hh' & Hi' & Hn' & Hl').
  assert (Hst' : st' = settle_all tc (omap (query reply) (monitor st).2)
                         (monitor st).1).
  { unfold st', Polling.round. by destruct (monitor st). }
  rewrite <-Hst' in Ht', Hh', Hi', Hn', Hl'.
  assert (Hlocked : locked st' = locked st).
  { rewrite Hl', query_events, Hl, filter_app by done.
    rewrite (filter_all _ (locked st)).
    2:{ apply Forall_forall. intros x Hx Hin.
        apply list_elem_of_fmap in Hin as (t & -> & Hin).
        rewrite Hp in Hin. by apply list_elem_of_filter in Hin as [[_ ?] _]. }
    rewrite (filter_none _ (task_id <$> (monitor st).2)).
    2:{ apply Forall_forall. tauto. }
    apply app_nil_r. }
  split_and!; try congruence.
  destruct (monitor_spec tc st') as (_ & _ & _ & -> & _).
  by rewrite Hp, Hlocked, Ht', Ht.
Qed.

End PollingFacts.

Section PollDeliveryFacts.

Import TaskManager.

Variable tc : string → list (string * string) → string.
Variable validTaskStatus : Z → bool.
Variable handleResponse : Api.AxiosResponse → Outcome Api.TaskResult.
Variable setupTransformer : list string → string → Api.TaskEnvelope.
Variable defaultTransformResponse : string → Api.TaskEnvelope.

Abbreviation fetch' :=
  (Api.queryTaskResult validTaskStatus handleResponse setupTransformer
     defaultTransformResponse).
Abbreviation query' :=
  (Polling.query validTaskStatus handleResponse setupTransformer
     defaultTransformResponse).
Abbreviation transform' :=
  (Api.transformer setupTransformer defaultTransformResponse).





End PollDeliveryFacts.

(** * Further properties of the balance store *)

Section TagFacts.

Import Balances.

Lemma indexOf_from_first (i : Z) (l1 l2 : list string) (t : string) :
  t ∉ l1 → indexOf_from i (l1 ++ t :: l2) t = (i + Z.of_nat (length l1))%Z.
Proof.
  revert i. induction l1 as [|y l1 IH]; intros i Hnot; simpl.
  - rewrite decide_True by done. lia.
  - apply not_elem_of_cons in Hnot as [Hne Hnot].
    rewrite decide_False by done. rewrite IH by done. lia.
Qed.

Lemma removeTag_first (l1 l2 : list string) (t : string) :
  t ∉ l1 → removeTag (Some (l1 ++ t :: l2)) t = Some (l1 ++ l2).
Proof.
  intros Hnot. unfold removeTag, indexOf. rewrite indexOf_from_first by done.
  rewrite decide_False by lia. unfold slice_to, slice_from. f_equal.
  replace (Z.to_nat (0 + Z.of_nat (length l1))) with (length l1) by lia.
  replace (Z.to_nat (0 + Z.of_nat (length l1) + 1)) with (S (length l1))
    by lia.
  rewrite take_app_length. f_equal.
  rewrite (cons_middle t l1 l2), app_assoc.
  rewrite drop_app_length'; [done|]. rewrite length_app. simpl. lia.
Qed.

(** X9.  When the list holds the tag, [removeTag] returns the list without
    the first occurrence of the tag: the tags before and after it keep
    their order, and later occurrences of the same tag stay. *)
Theorem removeTag_removes_first_occurrence (l : list string) (t : string) :
  t ∈ l →
  ∃ l1 l2, l = l1 ++ t :: l2 ∧ (t ∉ l1) ∧
           removeTag (Some l) t = Some (l1 ++ l2) ∧
           (∀ x, x ≠ t → (x ∈ l1 ++ l2 ↔ x ∈ l)) ∧
           (t ∈ l2 → t ∈ l1 ++ l2).
Proof.
  intros Hin. apply list_elem_of_split_l in Hin as (l1 & l2 & -> & Hnot).
  exists l1, l2. split_and!; try done.
  - by apply removeTag_first.
  - intros x Hne. rewrite !elem_of_app, elem_of_cons. tauto.
  - intros Hl2. apply elem_of_app. by right.
Qed.

(** X10.  [removeTags] returns as many accounts as it is given, in the same
    order and with the same address and label; the tags of an account are
    what [removeTag] returns for them, except that a [null] result leaves
    the account's tags as they were. *)
Theorem removeTags_rewrites_tags_only
    (data : list GeneralAccountData) (t : string) :
  length (removeTags data t) = length data ∧
  (∀ i a, data !! i = Some a →
     ∃ a', removeTags data t !! i = Some a' ∧
           ga_address a' = ga_address a ∧
           ga_label a' = ga_label a ∧
           ga_tags a' = match removeTag (ga_tags a) t with
                        | Some tags => Some tags
                        | None => ga_tags a
                        end) ∧
  (∀ i a l1 l2, data !! i = Some a →
     ga_tags a = Some (l1 ++ t :: l2) → t ∉ l1 →
     ga_tags <$> removeTags data t !! i = Some (Some (l1 ++ l2))).
Proof.
  rewrite removeTags_map. split_and!.
  - apply length_fmap.
  - intros i a Hi. exists (removeTags_account t a).
    rewrite list_lookup_fmap, Hi. unfold removeTags_account; simpl.
    by destruct (removeTag (ga_tags a) t).
  - intros i a l1 l2 Hi Htags Hnot.
    rewrite list_lookup_fmap, Hi. unfold removeTags_account; simpl.
    by rewrite Htags, removeTag_first.
Qed.

(** X11.  The action [removeTag] leaves the balances and the totals alone
    and keeps the number and the order of the eth accounts, of the
    standalone btc accounts and of the xpubs: the account at each position
    is the one that was there, with its address and label (for an xpub, its
    key, derivation path and label).  An xpub without address list still
    has none, and an xpub that carries the tag keeps its other tags. *)
Theorem removeTag_action_keeps_accounts
    (state : BalanceState) (t : string) :
  let state' := actions.removeTag state t in
  eth state' = eth state ∧ btc state' = btc state ∧
  totals state' = totals state ∧
  length (ethAccounts state') = length (ethAccounts state) ∧
  length (standalone (btcAccounts state')) =
    length (standalone (btcAccounts state)) ∧
  length (xpubs (btcAccounts state')) = length (xpubs (btcAccounts state)) ∧
  (∀ i a, ethAccounts state !! i = Some a →
     ∃ a', ethAccounts state' !! i = Some a' ∧
           ga_address a' = ga_address a ∧ ga_label a' = ga_label a) ∧
  (∀ i a, standalone (btcAccounts state) !! i = Some a →
     ∃ a', standalone (btcAccounts state') !! i = Some a' ∧
           ga_address a' = ga_address a ∧ ga_label a' = ga_label a) ∧
  (∀ i x, xpubs (btcAccounts state) !! i = Some x →
     ∃ x', xpubs (btcAccounts state') !! i = Some x' ∧
           xp_xpub x' = xp_xpub x ∧
           xp_derivationPath x' = xp_derivationPath x ∧
           xp_label x' = xp_label x ∧
           (xp_addresses x = None → xp_addresses x' = None) ∧
           (∀ l1 l2, xp_tags x = Some (l1 ++ t :: l2) → t ∉ l1 →
                     xp_tags x' = Some (l1 ++ l2))).
Proof.
  intros state'. unfold state', actions.removeTag; simpl.
  rewrite !removeTags_map, !length_fmap. split_and!; try done.
  - intros i a Hi. exists (removeTags_account t a).
    rewrite list_lookup_fmap, Hi. unfold removeTags_account; simpl.
    by destruct (removeTag (ga_tags a) t).
  - intros i a Hi. exists (removeTags_account t a).
    rewrite list_lookup_fmap, Hi. unfold removeTags_account; simpl.
    by destruct (removeTag (ga_tags a) t).
  - intros i x Hi. exists (removeTag_xpub t x).
    rewrite list_lookup_fmap, Hi. simpl. split_and!; try done.
    + by intros ->.
    + intros l1 l2 -> Hnot. by apply removeTag_first.
Qed.

End TagFacts.

Section UpdateFacts.

Import Balances Balances.actions.

Variable api : Settlements.

(** X12.  [updateBalances] always completes and always replaces the totals.
    For chain ETH it replaces the eth balances and leaves the btc balances
    alone, for chain BTC the converse, without chain it replaces both; a
    missing per-chain entry is committed as [{}].  It touches neither the
    account lists, nor the defi module, the registry or the notifications,
    and it starts [accounts] without awaiting it. *)
Theorem updateBalances_commits_by_chain
    (chain : option Blockchain) (fresh : BlockchainBalances)
    (w : RootState) :
  let out := updateBalances chain fresh w in
  out.2 = Resolved tt ∧
  totals (balances out.1) = bb_totals fresh ∧
  eth (balances out.1) =
    (if decide (chain = Some BTC) then eth (balances w)
     else default EmptyObject (perAccount_ETH fresh)) ∧
  btc (balances out.1) =
    (if decide (chain = Some ETH) then btc (balances w)
     else default EmptyObject (perAccount_BTC fresh)) ∧
  ethAccounts (balances out.1) = ethAccounts (balances w) ∧
  btcAccounts (balances out.1) = btcAccounts (balances w) ∧
  defi out.1 = defi w ∧ registry out.1 = registry w ∧
  notices out.1 = notices w ∧
  spawned out.1 = spawned w ++ ["accounts"].
Proof.
  unfold updateBalances, mbind, Action_bind, when, commit, dispatch_detached,
    is_chain, or_empty.
  destruct chain as [[]|]; simpl; by split_and!.
Qed.

End UpdateFacts.

Section FetchingFacts.

Import Balances Balances.actions Fetching.

Variable show_error : JsError → string.
Variable api : Replies.

Lemma accounts_outcome (w : RootState) :
  (accounts show_error api w).2 = Resolved tt.
Proof.
  unfold accounts, try_catch, mbind, Action_bind, await, promise_all2, commit,
    notify.
  by destruct (ethAccounts_reply api), (btcAccounts_reply api).
Qed.

(** X13.  [accounts] never throws and commits both account lists or none:
    when both requests resolve, the eth and btc account lists are replaced
    by the answers and nothing is notified; when either is rejected, the
    balances module is as before and one error notification titled
    'Querying accounts' is emitted, for the reason of one of the rejected
    requests.  Balances, totals, defi module and registry are never
    touched. *)
Theorem accounts_commits_both_lists_or_none (w : RootState) :
  let out := accounts show_error api w in
  let failure e :=
    mkNotification ("Failed to accounts: " +:+ show_error e)
      "Querying accounts" ERROR true in
  out.2 = Resolved tt ∧
  eth (balances out.1) = eth (balances w) ∧
  btc (balances out.1) = btc (balances w) ∧
  totals (balances out.1) = totals (balances w) ∧
  defi out.1 = defi w ∧ registry out.1 = registry w ∧
  spawned out.1 = spawned w ∧
  (∀ e b, ethAccounts_reply api = Resolved e →
          btcAccounts_reply api = Resolved b →
     ethAccounts (balances out.1) = e ∧ btcAccounts (balances out.1) = b ∧
     notices out.1 = notices w) ∧
  ((∃ e, ethAccounts_reply api = Rejected e) ∨
   (∃ e, btcAccounts_reply api = Rejected e) →
     balances out.1 = balances w ∧
     ∃ e, notices out.1 = notices w ++ [failure e] ∧
          (ethAccounts_reply api = Rejected e ∨
           btcAccounts_reply api = Rejected e)).
Proof.
  unfold accounts, try_catch, mbind, Action_bind, await, promise_all2, commit,
    notify.
  destruct (ethAccounts_reply api) as [e|e1],
           (btcAccounts_reply api) as [b|e2]; simpl.
  - split_and!; try done.
    + by intros ?? [= <-] [= <-].
    + intros [[? [=]]|[? [=]]].
  - split_and!; try done. intros _. split; [done|]. exists e2. auto.
  - split_and!; try done. intros _. split; [done|]. exists e1. auto.
  - split_and!; try done. intros _. split; [done|].
    destruct (eth_settles_first api); eauto.
Qed.

(** X14.  [fetchBalances] never throws.  While a task of type
    QUERY_BALANCES is running it does nothing at all.  Otherwise it ends by
    running [accounts], after having either added to the registry one task
    for the identifier the backend returned, or, when the request was
    rejected, emitted one error notification titled 'Querying all
    Balances'.  The task it adds sets [ignoreResult]: the task manager
    removes it on any result without looking for a handler. *)
Theorem fetchBalances_registers_an_ignored_task
    (payload : option AllBalancePayload) (w : RootState) :
  let out := fetchBalances show_error api payload w in
  let sent := default (mkAllBalancePayload false false) payload in
  let reply := queryBalancesAsync api (ignoreCache sent) (saveData sent) in
  out.2 = Resolved tt ∧
  (isTaskRunning api QUERY_BALANCES = true → out = (w, Resolved tt)) ∧
  (isTaskRunning api QUERY_BALANCES = false →
   ∀ n, reply = Resolved n →
     ∃ t, task_id t = Some n ∧ task_type t = QUERY_BALANCES ∧
          (∀ tc res st,
             TaskManager.handleResult tc res t st =
               (TaskManager.commit_remove (Some n) st, None)) ∧
          out = accounts show_error api
                  (mkRootState (balances w) (defi w) (registry w ++ [t])
                     (notices w) (spawned w))) ∧
  (isTaskRunning api QUERY_BALANCES = false →
   ∀ e, reply = Rejected e →
     out = accounts show_error api
             (mkRootState (balances w) (defi w) (registry w)
                (notices w ++
                 [mkNotification
                    ("Failed to fetch all balances: " +:+ show_error e)
                    "Querying all Balances" ERROR true])
                (spawned w))).
Proof.
  intros out sent reply.
  assert (Hacc : ∀ w', (accounts show_error api w').2 = Resolved tt).
  { intros w'. apply (accounts_outcome w'). }
  unfold out, fetchBalances. fold sent. fold reply.
  destruct (isTaskRunning api QUERY_BALANCES) eqn:Hrun.
  { by split_and!. }
  unfold try_catch. unfold mbind at 1. unfold Action_bind at 1.
  unfold mbind, Action_bind, await, commit_tasks_add, notify.
  destruct reply as [n|e] eqn:Hreply; simpl.
  - split_and!; [apply Hacc|done| |done].
    intros _ n' [= <-].
    exists (createTask n QUERY_BALANCES
              (mkTaskMeta "Query All Balances" None (Some true) None None)).
    split_and!; try done.
  - split_and!; [apply Hacc|done|done|]. by intros _ e' [= <-].
Qed.

End FetchingFacts.

Section ExchangeFacts.

Import Exchanges.

Variable tc : string → list (string * string) → string.
Variable assertion_error : string → JsError.

Lemma indexOf_nonneg_iff (l : list string) (x : string) :
  (0 ≤ Balances.indexOf l x)%Z ↔ x ∈ l.
Proof.
  split.
  - intros Hidx. destruct (decide (x ∈ l)) as [|Hnot]; [done|].
    unfold Balances.indexOf in Hidx.
    rewrite indexOf_from_absent in Hidx by done. lia.
  - intros Hin. by apply indexOf_from_present.
Qed.

(** X15.  [removeExchange] never throws.  It returns [true], and commits
    the mutation [removeExchange] for the exchange, exactly when the backend
    answers [true] and the exchange is among the connected ones.  When the
    backend answers [false] nothing is committed and nothing is shown.  When
    the backend answers [true] for an exchange that is not connected, the
    failed assertion is caught: nothing is committed, the error of the
    assertion is shown and the action returns [false]; a rejected request is
    shown in the same way. *)
Theorem removeExchange_commits_only_connected
    (api_removeExchange : string → Outcome bool)
    (connectedExchanges : list string) (exchange : string) :
  let out :=
    removeExchange tc assertion_error api_removeExchange connectedExchanges
      exchange in
  let shown e :=
    ShownError
      (tc "actions.balances.exchange_removal.description"
         [("exchange", exchange); ("error", error_message e)])
      (tc "actions.balances.exchange_removal.title" []) in
  (∃ b, out.2 = Resolved b) ∧
  (out.2 = Resolved true ↔
     api_removeExchange exchange = Resolved true ∧
     exchange ∈ connectedExchanges) ∧
  (out.2 = Resolved true →
     out.1 = [Committed "removeExchange" exchange]) ∧
  (api_removeExchange exchange = Resolved false →
     out = ([], Resolved false)) ∧
  (api_removeExchange exchange = Resolved true →
   exchange ∉ connectedExchanges →
     out = ([shown (assertion_error
                      (not_connected_message connectedExchanges exchange))],
            Resolved false)) ∧
  (∀ e, api_removeExchange exchange = Rejected e →
     out = ([shown e], Resolved false)).
Proof.
  intros out shown. unfold out, removeExchange, try_catch, assert, await, emit.
  unfold mbind, Run_bind, mret, Run_ret.
  pose proof (indexOf_nonneg_iff connectedExchanges exchange) as Hidx.
  destruct (api_removeExchange exchange) as [[]|e]; simpl.
  - destruct (bool_decide (0 ≤ Balances.indexOf connectedExchanges exchange)%Z)
      eqn:Hdec; simpl.
    + apply bool_decide_eq_true in Hdec. apply Hidx in Hdec.
      split_and!; try done; eauto.
    + apply bool_decide_eq_false in Hdec.
      assert (exchange ∉ connectedExchanges) by (by rewrite <-Hidx).
      split_and!; try done; eauto.
      split; [done|]. by intros [_ ?].
  - split_and!; try done; eauto. split; [done|]. by intros [[=] _].
  - split_and!; try done; eauto.
    + split; [done|]. by intros [[=] _].
    + by intros e' [= <-].
Qed.

(** X16.  [setupExchange] never throws.  Whenever the request resolves, be
    it with [true] or with [false], the mutation [addExchange] is committed
    for the exchange and [fetchExchangeBalances] is started for it, and the
    action returns the backend's answer; when the request is rejected,
    nothing is committed, the error is shown and the action returns
    [false]. *)
Theorem setupExchange_commits_on_any_answer
    (api_setupExchange : string → string → string → option string →
                         Outcome bool)
    (payload : ExchangePayload) :
  let out := setupExchange tc api_setupExchange payload in
  let reply :=
    api_setupExchange (exchange payload) (apiKey payload) (apiSecret payload)
      (passphrase payload) in
  (∀ b, reply = Resolved b →
     out = ([Committed "addExchange" (exchange payload);
             DispatchedDetached "fetchExchangeBalances" (exchange payload)],
            Resolved b)) ∧
  (∀ e, reply = Rejected e →
     out = ([ShownError
               (tc "actions.balances.exchange_setup.description"
                  [("exchange", exchange payload);
                   ("error", error_message e)])
               (tc "actions.balances.exchange_setup.title" [])],
            Resolved false)).
Proof.
  intros out reply. unfold out, setupExchange, try_catch, await, emit.
  unfold mbind, Run_bind, mret, Run_ret. fold reply.
  split; [intros b ->|intros e ->]; done.
Qed.

End ExchangeFacts.

(** * Login *)

Section SessionFacts.

Import Session.

Variable validAccountOperationStatus : Z → bool.
Variable handleResponse : AxiosResponse → Settled Payload.
Variable axiosCamelCaseTransformer : option Payload → Payload.
Variable transformResponse : string → Envelope.

Abbreviation login' :=
  (login validAccountOperationStatus handleResponse axiosCamelCaseTransformer
     transformResponse).

(** X8.  [login] sends one PATCH request to [/users/<name>] with the action
    [login], the password and the sync approval, [unknown] when none is
    given, and its outcome depends on the transport through the reply to
    that request only.  Provided the status predicate accepts 300 and the
    envelope helper throws no [SyncConflictError] of its own, [login]
    rejects with a [SyncConflictError] exactly when the reply has status
    300, and the error then carries the message of the response body and
    the camel-cased result of that body. *)
Theorem login_reports_sync_conflict_on_300
    (transport : Request → Api.HttpReply) (name password : string)
    (syncApproval : option string) :
  validAccountOperationStatus 300 = true →
  (∀ response m p, handleResponse response ≠ Failed (SyncConflictError m p)) →
  let request :=
    mkRequest "PATCH" ("/users/" +:+ name)
      [("action", "login"); ("password", password);
       ("sync_approval", default "unknown" syncApproval)] in
  (∀ transport', transport' request = transport request →
     login' transport' name password syncApproval =
     login' transport name password syncApproval) ∧
  ((∃ m p, login' transport name password syncApproval =
             Failed (SyncConflictError m p)) ↔
   (∃ body, transport request = Api.Response 300 body)) ∧
  (∀ body, transport request = Api.Response 300 body →
     login' transport name password syncApproval =
       Failed (SyncConflictError
                 (env_message (transformResponse body))
                 (axiosCamelCaseTransformer
                    (env_result (transformResponse body))))).
Proof.
  intros H300 Hhelper request.
  assert (Hconflict : ∀ body, transport request = Api.Response 300 body →
     login' transport name password syncApproval =
       Failed (SyncConflictError
                 (env_message (transformResponse body))
                 (axiosCamelCaseTransformer
                    (env_result (transformResponse body))))).
  { intros body Hreply. unfold login, axios_patch. fold request.
    by rewrite Hreply, H300. }
  split_and!; [|split|done].
  - intros transport' Heq. unfold login, axios_patch. fold request.
    by rewrite Heq.
  - intros (m & p & Hlogin). unfold login, axios_patch in Hlogin.
    fold request in Hlogin.
    destruct (transport request) as [reason|st body]; [done|].
    destruct (decide (st = 300%Z)) as [->|Hne]; [by eexists|].
    exfalso. destruct (validAccountOperationStatus st); [|done].
    simpl in Hlogin. rewrite decide_False in Hlogin by done.
    by apply Hhelper in Hlogin.
  - intros [body Hreply]. eauto.
Qed.

End SessionFacts.

(** * The status mixin *)

Section StatusMixinFacts.

Import StatusMixin.

Context {SectionId : Type} `{EqDecision SectionId} (NONE : SectionId).
Context {Status : Type} `{EqDecision Status}
  (LOADED PARTIALLY_LOADED REFRESHING LOADING : Status).
Variable assertion_error : JsError.

(** X17.  For a component whose section is NONE both getters throw the
    assertion's error.  For any other section they return, and, the four
    statuses being distinct members of the enum, the pair they return tells
    the status: both hold exactly for LOADING, neither exactly for LOADED,
    [refreshing] alone exactly for REFRESHING and PARTIALLY_LOADED, and
    [loading] alone exactly for the remaining statuses. *)
Theorem loading_and_refreshing_tell_the_status
    (section : SectionId) (status : SectionId → Status) :
  NoDup [LOADED; PARTIALLY_LOADED; REFRESHING; LOADING] →
  (section = NONE →
     loading NONE LOADED PARTIALLY_LOADED REFRESHING assertion_error
       section status = Rejected assertion_error ∧
     refreshing NONE PARTIALLY_LOADED REFRESHING LOADING assertion_error
       section status = Rejected assertion_error) ∧
  (section ≠ NONE →
     ∃ l r,
       loading NONE LOADED PARTIALLY_LOADED REFRESHING assertion_error
         section status = Resolved l ∧
       refreshing NONE PARTIALLY_LOADED REFRESHING LOADING assertion_error
         section status = Resolved r ∧
            (l = true ∧ r = true ↔ status section = LOADING) ∧
            (l = false ∧ r = false ↔ status section = LOADED) ∧
            (l = false ∧ r = true ↔
               status section = REFRESHING ∨
               status section = PARTIALLY_LOADED) ∧
            (l = true ∧ r = false ↔
               status section ∉
                 [LOADED; PARTIALLY_LOADED; REFRESHING; LOADING])).
Proof.
  intros Hdistinct.
  apply NoDup_cons in Hdistinct as [H1 Hdistinct].
  apply NoDup_cons in Hdistinct as [H2 Hdistinct].
  apply NoDup_cons in Hdistinct as [H3 _].
  apply not_elem_of_cons in H1 as [Hab H1].
  apply not_elem_of_cons in H1 as [Hac H1].
  apply not_elem_of_cons in H1 as [Had _].
  apply not_elem_of_cons in H2 as [Hbc H2].
  apply not_elem_of_cons in H2 as [Hbd _].
  apply not_elem_of_cons in H3 as [Hcd _].
  split.
  - intros ->. unfold loading, refreshing. by rewrite !decide_False by tauto.
  - intros Hsec. unfold loading, refreshing. rewrite !decide_True by done.
    eexists _, _. split; [done|]. split; [done|]. cbn zeta.
    rewrite !elem_of_cons, elem_of_nil.
    repeat case_bool_decide; simpl; intuition congruence.
Qed.

End StatusMixinFacts.

(** * The settings converters *)

Section ConverterFacts.

Import Converters.

Context {Currency : Type} (ticker_symbol : Currency → string)
  (currencies : list Currency).

Abbreviation convert' := (convertToGeneralSettings ticker_symbol currencies).

Lemma find_first {A} (f : A → bool) (l : list A) (x : A) :
  List.find f l = Some x →
  ∃ l1 l2, l = l1 ++ x :: l2 ∧ f x = true ∧ Forall (λ y, f y = false) l1.
Proof.
  induction l as [|y l IH]; [done|]. simpl.
  destruct (f y) eqn:Hy.
  - intros [= <-]. by exists [], l.
  - intros (l1 & l2 & -> & Hx & Hl1)%IH. exists (y :: l1), l2.
    split_and!; try done. by constructor.
Qed.

(** X18.  [findCurrency] returns the first currency of the list whose
    ticker symbol is the given one, and throws
    [Error('Could not find <symbol>')] exactly when the list has no currency
    with that ticker symbol. *)
Theorem findCurrency_returns_first_match (symbol : string) :
  (∀ c, findCurrency ticker_symbol currencies symbol = Resolved c →
     ticker_symbol c = symbol ∧
     ∃ before after, currencies = before ++ c :: after ∧
       Forall (λ c', ticker_symbol c' ≠ symbol) before) ∧
  ((∃ e, findCurrency ticker_symbol currencies symbol = Rejected e) ↔
   Forall (λ c, ticker_symbol c ≠ symbol) currencies) ∧
  (∀ e, findCurrency ticker_symbol currencies symbol = Rejected e →
     e = Error ("Could not find " +:+ symbol)).
Proof.
  unfold findCurrency.
  destruct (List.find _ currencies) as [c|] eqn:Hfind.
  - apply find_first in Hfind as (l1 & l2 & Heq & Hc & Hl1).
    apply bool_decide_eq_true in Hc.
    split_and!.
    + intros c' [= <-]. split; [done|]. exists l1, l2. split; [done|].
      eapply Forall_impl; [exact Hl1|]. intros c' Hc'.
      by apply bool_decide_eq_false in Hc'.
    + split; [by intros [? [=]]|]. intros Hnone. exfalso.
      rewrite Heq in Hnone. apply Forall_app in Hnone as [_ Hnone].
      by apply Forall_cons in Hnone as [? _].
    + by intros e [=].
  - split_and!.
    + by intros c [=].
    + split; [|by eauto]. intros _. apply Forall_forall. intros c Hin Hc.
      apply list_elem_of_In in Hin.
      pose proof (find_none _ _ Hfind c Hin) as Hf. simpl in Hf.
      by apply bool_decide_eq_false in Hf.
    + by intros e [= <-].
Qed.

(** X19.  [convertToGeneralSettings] throws exactly when no currency has
    the ticker symbol of the main currency, with the error of
    [findCurrency]; otherwise the selected currency of the result has that
    ticker symbol, is one of the listed currencies, and every other field is
    the corresponding database setting. *)
Theorem convertToGeneralSettings_needs_a_known_currency
    (settings : DBSettings) :
  ((∃ e, convert' settings = Rejected e) ↔
   Forall (λ c, ticker_symbol c ≠ main_currency settings) currencies) ∧
  (∀ e, convert' settings = Rejected e →
     e = Error ("Could not find " +:+ main_currency settings)) ∧
  (∀ g, convert' settings = Resolved g →
     ticker_symbol (selectedCurrency g) = main_currency settings ∧
     selectedCurrency g ∈ currencies ∧
     floatingPrecision g = ui_floating_precision settings ∧
     historicDataStart g = historical_data_start settings ∧
     dateDisplayFormat g = date_display_format settings ∧
     thousandSeparator g = thousand_separator settings ∧
     decimalSeparator g = decimal_separator settings ∧
     currencyLocation g = currency_location settings ∧
     balanceSaveFrequency g = balance_save_frequency settings ∧
     ethRpcEndpoint g = eth_rpc_endpoint settings ∧
     anonymizedLogs g = anonymized_logs settings ∧
     anonymousUsageAnalytics g = submit_usage_analytics settings ∧
     krakenAccountType g = kraken_account_type settings ∧
     activeModules g = active_modules settings).
Proof.
  unfold convertToGeneralSettings, mbind, Outcome_bind, findCurrency.
  destruct (List.find _ currencies) as [c|] eqn:Hfind.
  - pose proof (find_some _ _ Hfind) as [Hin Hc].
    apply bool_decide_eq_true in Hc. apply list_elem_of_In in Hin.
    split_and!.
    + split; [by intros [? [=]]|]. intros Hnone. exfalso.
      by eapply Forall_forall in Hnone.
    + by intros e [=].
    + intros g [= <-]. simpl. by split_and!.
  - split_and!.
    + split; [|by eauto]. intros _. apply Forall_forall. intros c Hin Hc.
      apply list_elem_of_In in Hin.
      pose proof (find_none _ _ Hfind c Hin) as Hf. simpl in Hf.
      by apply bool_decide_eq_false in Hf.
    + by intros e [= <-].
    + by intros g [=].
Qed.

End ConverterFacts.

(** * The further properties on sample data *)

Section MoreSamples.

Import TaskManager.

Lemma monitor_polls_unlocked_tasks_in_order_witness :
  task_id task9 ∈ locked (monitor null_registered).1.
Proof.
  apply (proj2 (proj2 (proj2 (proj2 (proj2
    (monitor_polls_unlocked_tasks_in_order sample_tc null_registered)))))
    task9).
  - cbn. constructor.
  - by exists 9%Z.
Defined.

Lemma successful_result_is_dispatched_once_witness :
  let st := registerHandler "add_account" by_type None two_tasks in
  let out := settle sample_tc task9 (Resolved sample_result) st in
  out.2 = None ∧
  calls_since st out.1 = [mkInvocation by_type sample_result plain_meta] ∧
  tasks out.1 = filter (λ e, e.1 ≠ "9") (tasks st).
Proof.
  apply (successful_result_is_dispatched_once sample_tc
           (registerHandler "add_account" by_type None two_tasks) task9
           sample_result by_type); reflexivity.
Defined.

Lemma failed_poll_is_retried_witness :
  let st := with_locked [Some 7%Z; Some 9%Z] two_tasks in
  let out := settle sample_tc task9 (Rejected (Error "No result")) st in
  out.2 = None ∧ tasks out.1 = tasks st ∧
  locked out.1 = [Some 7%Z] ∧
  task9 ∈ (monitor out.1).2.
Proof.
  pose proof (failed_poll_is_retried sample_tc
    (with_locked [Some 7%Z; Some 9%Z] two_tasks) task9 (Error "No result")
    "9" eq_refl (ex_intro _ 9%Z eq_refl)) as Hretry.
  destruct Hretry as (Hnone & Htasks & _ & _ & _ & _ & Hpolled).
  - cbn. repeat constructor.
  - by split_and!.
Defined.

Lemma twice_throwing_handler_leaves_task_for_retry_witness :
  let st :=
    registerHandler "add_account" always_throws None
      (with_locked [Some 9%Z] two_tasks) in
  let out := settle sample_tc task9 (Resolved sample_result) st in
  out.2 = None ∧ tasks out.1 = tasks st ∧ Some 9%Z ∉ locked out.1.
Proof.
  pose proof (twice_throwing_handler_leaves_task_for_retry sample_tc
    (registerHandler "add_account" always_throws None
       (with_locked [Some 9%Z] two_tasks))
    task9 sample_result always_throws (Error "boom") (Error "boom")
    eq_refl eq_refl eq_refl eq_refl eq_refl)
    as (Hnone & Htasks & Hfree & _).
  by split_and!.
Defined.

Lemma registration_serves_its_key_only_witness :
  lookup_handler
    (handler (registerHandler "add_account" by_type None two_tasks)) task9
    = Some by_type ∧
  lookup_handler
    (handler (registerHandler "add_account" by_type (Some "9") two_tasks))
    task7
    = lookup_handler (handler two_tasks) task7.
Proof.
  pose proof (registration_serves_its_key_only two_tasks "add_account"
    by_type by_type) as Hreg.
  split.
  - apply (proj1 (Hreg None) task9 eq_refl).
  - apply (proj2 (proj2 (Hreg (Some "9"))) task7); by vm_compute.
Defined.

Lemma round_of_pending_tasks_changes_nothing_witness :
  let st' :=
    Polling.round sample_tc sample_validTaskStatus sample_handleResponse
      (λ _, sample_transform) sample_transform pending_reply two_tasks in
  tasks st' = tasks two_tasks ∧ locked st' = locked two_tasks ∧
  invocations st' = invocations two_tasks.
Proof.
  pose proof (round_of_pending_tasks_changes_nothing sample_tc
    sample_validTaskStatus sample_handleResponse (λ _, sample_transform)
    sample_transform pending_reply two_tasks) as Hround.
  destruct Hround as (Ht & Hl & _ & Hi & _).
  - intros t n Hin Hid. exists (Error "No result").
    apply elem_of_cons in Hin as [->|Hin];
      [|apply elem_of_cons in Hin as [->|Hin]; [|by apply elem_of_nil in Hin]];
      injection Hid as <-; by vm_compute.
  - by split_and!.
Defined.


End MoreSamples.

Lemma login_reports_sync_conflict_on_300_witness :
  Session.login sample_login_status sample_login_unwrap sample_camel
    sample_login_parse conflicting_transport "alice" "secret" None =
  Session.Failed
    (Session.SyncConflictError "conflict" (Data "remote is newer")).
Proof.
  assert (Hhelper : ∀ response m p,
            sample_login_unwrap response ≠
              Session.Failed (Session.SyncConflictError m p)).
  { intros response m p. unfold sample_login_unwrap.
    by destruct (Session.env_result _). }
  apply (proj2 (proj2 (login_reports_sync_conflict_on_300
    sample_login_status sample_login_unwrap sample_camel sample_login_parse
    conflicting_transport "alice" "secret" None eq_refl Hhelper))
    "remote is newer" eq_refl).
Defined.

Lemma removeTag_removes_first_occurrence_witness :
  ∃ l1 l2, ["home"; "work"; "home"] = l1 ++ "work" :: l2 ∧ ("work" ∉ l1) ∧
    Balances.removeTag (Some ["home"; "work"; "home"]) "work"
      = Some (l1 ++ l2) ∧
    (∀ x, x ≠ "work" → (x ∈ l1 ++ l2 ↔ x ∈ ["home"; "work"; "home"])) ∧
    ("work" ∈ l2 → "work" ∈ l1 ++ l2).
Proof.
  apply (removeTag_removes_first_occurrence ["home"; "work"; "home"] "work").
  apply (bool_decide_unpack _). by vm_compute.
Defined.

Lemma removeTags_rewrites_tags_only_witness :
  Balances.ga_tags <$>
    Balances.removeTags [account_a; account_b] "home" !! 0%nat
  = Some (Some ["cold"]).
Proof.
  apply (proj2 (proj2 (removeTags_rewrites_tags_only [account_a; account_b]
           "home")) 0%nat account_a ["cold"] [] eq_refl eq_refl).
  apply (bool_decide_unpack _). by vm_compute.
Defined.

Lemma removeTag_action_keeps_accounts_witness :
  ∃ x', Balances.xpubs
          (Balances.btcAccounts
             (Balances.actions.removeTag sample_balances "work")) !! 0%nat
        = Some x' ∧
        Balances.xp_xpub x' = "xpub6C" ∧
        Balances.xp_tags x' = Some ["home"].
Proof.
  pose proof (removeTag_action_keeps_accounts sample_balances "work")
    as (_ & _ & _ & _ & _ & _ & _ & _ & Hxpub).
  destruct (Hxpub 0%nat xpub_c eq_refl) as (x' & Hx' & Hkey & _ & _ & _ & Htags).
  exists x'. split_and!; [done|done|].
  apply (Htags ["home"] [] eq_refl).
  apply (bool_decide_unpack _). by vm_compute.
Defined.

Lemma accounts_commits_both_lists_or_none_witness :
  let out :=
    Fetching.accounts sample_show_error replies_btc_down sample_store in
  Balances.actions.balances out.1 = Balances.actions.balances sample_store ∧
  ∃ e, Balances.actions.notices out.1 =
         Balances.actions.notices sample_store ++
         [mkNotification
            ("Failed to accounts: " +:+ sample_show_error e)
            "Querying accounts" ERROR true] ∧
       (Fetching.ethAccounts_reply replies_btc_down = Rejected e ∨
        Fetching.btcAccounts_reply replies_btc_down = Rejected e).
Proof.
  apply (proj2 (proj2 (proj2 (proj2 (proj2 (proj2 (proj2 (proj2
    (accounts_commits_both_lists_or_none sample_show_error replies_btc_down
       sample_store))))))))).
  right. by eexists.
Defined.

Lemma fetchBalances_registers_an_ignored_task_witness :
  Fetching.fetchBalances sample_show_error replies_running None sample_store
    = (sample_store, Resolved tt) ∧
  ∃ t, task_id t = Some 7%Z ∧ task_type t = Fetching.QUERY_BALANCES ∧
       (∀ tc res st,
          TaskManager.handleResult tc res t st =
            (TaskManager.commit_remove (Some 7%Z) st, None)) ∧
       Fetching.fetchBalances sample_show_error replies_ok None sample_store =
         Fetching.accounts sample_show_error replies_ok
           (Balances.actions.mkRootState
              (Balances.actions.balances sample_store)
              (Balances.actions.defi sample_store)
              (Balances.actions.registry sample_store ++ [t])
              (Balances.actions.notices sample_store)
              (Balances.actions.spawned sample_store)).
Proof.
  split.
  - apply (proj1 (proj2 (fetchBalances_registers_an_ignored_task
             sample_show_error replies_running None sample_store)) eq_refl).
  - apply (proj1 (proj2 (proj2 (fetchBalances_registers_an_ignored_task
             sample_show_error replies_ok None sample_store))) eq_refl 7%Z
             eq_refl).
Defined.

Lemma removeExchange_commits_only_connected_witness :
  Exchanges.removeExchange sample_tc sample_assertion_error
    (λ _, Resolved true) ["kraken"; "binance"] "poloniex" =
  ([Exchanges.ShownError
      (sample_tc "actions.balances.exchange_removal.description"
         [("exchange", "poloniex");
          ("error", "poloniex not found in kraken, binance")])
      (sample_tc "actions.balances.exchange_removal.title" [])],
   Resolved false).
Proof.
  apply (proj1 (proj2 (proj2 (proj2 (proj2
    (removeExchange_commits_only_connected sample_tc sample_assertion_error
       (λ _, Resolved true) ["kraken"; "binance"] "poloniex"))))) eq_refl).
  apply (bool_decide_unpack _). by vm_compute.
Defined.

Lemma setupExchange_commits_on_any_answer_witness :
  Exchanges.setupExchange sample_tc (λ _ _ _ _, Resolved false)
    kraken_payload =
  ([Exchanges.Committed "addExchange" "kraken";
    Exchanges.DispatchedDetached "fetchExchangeBalances" "kraken"],
   Resolved false).
Proof.
  apply (proj1 (setupExchange_commits_on_any_answer sample_tc
           (λ _ _ _ _, Resolved false) kraken_payload) false eq_refl).
Defined.

Lemma loading_and_refreshing_tell_the_status_witness :
  ∃ l r,
    StatusMixin.loading 0%nat 4%nat 3%nat 2%nat (Error "assertion")
      1%nat (λ _, 3%nat) = Resolved l ∧
    StatusMixin.refreshing 0%nat 3%nat 2%nat 1%nat (Error "assertion")
      1%nat (λ _, 3%nat) = Resolved r ∧
    l = false ∧ r = true.
Proof.
  destruct (proj2 (loading_and_refreshing_tell_the_status 0%nat 4%nat 3%nat
    2%nat 1%nat (Error "assertion") 1%nat (λ _, 3%nat)
    ltac:(apply (bool_decide_unpack _); by vm_compute))
    ltac:(discriminate))
    as (l & r & Hl & Hr & _ & _ & Hpartial & _).
  exists l, r. split_and!; [done|done|..];
    apply Hpartial; by right.
Defined.

Lemma findCurrency_returns_first_match_witness :
  ∃ before after,
    sample_currencies = before ++ ("Euro", "EUR") :: after ∧
    Forall (λ c', c'.2 ≠ "EUR") before.
Proof.
  apply (proj1 (findCurrency_returns_first_match snd sample_currencies "EUR")
           ("Euro", "EUR") eq_refl).
Defined.

Lemma convertToGeneralSettings_needs_a_known_currency_witness :
  ∃ g, Converters.convertToGeneralSettings snd sample_currencies
         sample_settings = Resolved g ∧
       Converters.selectedCurrency g = ("Euro", "EUR") ∧
       (Converters.selectedCurrency g).2 = "EUR".
Proof.
  eexists. split; [reflexivity|]. split; [reflexivity|].
  apply (proj2 (proj2 (convertToGeneralSettings_needs_a_known_currency snd
           sample_currencies sample_settings)) _ eq_refl).
Defined.

(** * Removal of an xpub *)

Section XpubFacts.

Import Balances Balances.actions Xpub.

Variable tc : string → list (string * string) → string.
Variable blockchainBalanceKeys : list string.
Variable api : Replies.

(** X20.  [deleteXpub] never throws: its first request is inside the [try],
    so its rejection is notified like the failure of the task.  While a task
    of type REMOVE_ACCOUNT is running the action does nothing.  On a
    failure the balances and the defi module are as before and one error
    notification is emitted.  On success the btc balances and the totals
    are those of the result; the eth balances and the defi module are never
    touched. *)
Theorem deleteXpub_catches_every_failure
    (payload : XpubPayload) (w : RootState) :
  let out := deleteXpub tc blockchainBalanceKeys api payload w in
  let failure e :=
    mkNotification
      (tc "actions.balances.xpub_removal.error.description"
         [("xpub", xpub payload); ("error", error_message e)])
      (tc "actions.balances.xpub_removal.error.title" []) ERROR true in
  out.2 = Resolved tt ∧
  eth (balances out.1) = eth (balances w) ∧
  defi out.1 = defi w ∧
  (isTaskRunning api REMOVE_ACCOUNT = true → out = (w, Resolved tt)) ∧
  (isTaskRunning api REMOVE_ACCOUNT = false →
     (∀ e, deleteXpub_reply api payload = Rejected e →
        out = (mkRootState (balances w) (defi w) (registry w)
                 (notices w ++ [failure e]) (spawned w),
               Resolved tt)) ∧
     (∀ n e, deleteXpub_reply api payload = Resolved n →
        taskCompletion api REMOVE_ACCOUNT None = Rejected e →
        balances out.1 = balances w ∧
        notices out.1 = notices w ++ [failure e]) ∧
     (∀ n r, deleteXpub_reply api payload = Resolved n →
        taskCompletion api REMOVE_ACCOUNT None = Resolved r →
        btc (balances out.1) = default EmptyObject (perAccount_BTC r) ∧
        totals (balances out.1) = bb_totals r ∧
        notices out.1 = notices w)).
Proof.
  unfold deleteXpub, try_catch, updateBalances, mbind, Action_bind, await,
    commit_tasks_add, dispatch_detached, notify, when, commit, is_chain,
    or_empty.
  destruct (isTaskRunning api REMOVE_ACCOUNT); simpl; [by split_and!|].
  destruct (deleteXpub_reply api payload) as [n|e]; simpl.
  - destruct (taskCompletion api REMOVE_ACCOUNT None) as [r|e]; simpl.
    + split_and!; try done. intros _. split_and!; try done.
      by intros ?? _ [= <-].
    + split_and!; try done. intros _. split_and!; try done.
      by intros ?? _ [= <-].
  - split_and!; try done. intros _. split_and!; try done.
    by intros ? [= <-].
Qed.

End XpubFacts.

Lemma deleteXpub_catches_every_failure_witness :
  Xpub.deleteXpub sample_tc [] xpub_refused
    (Xpub.mkXpubPayload "xpub6C" "m/0") sample_store =
  (Balances.actions.mkRootState
     (Balances.actions.balances sample_store)
     (Balances.actions.defi sample_store)
     (Balances.actions.registry sample_store)
     (Balances.actions.notices sample_store ++
      [mkNotification
         (sample_tc "actions.balances.xpub_removal.error.description"
            [("xpub", "xpub6C"); ("error", "unknown xpub")])
         (sample_tc "actions.balances.xpub_removal.error.title" [])
         ERROR true])
     (Balances.actions.spawned sample_store),
   Resolved tt).
Proof.
  apply (proj1 (proj2 (proj2 (proj2 (proj2
    (deleteXpub_catches_every_failure sample_tc [] xpub_refused
       (Xpub.mkXpubPayload "xpub6C" "m/0") sample_store)))) eq_refl)
    (Error "unknown xpub") eq_refl).
Defined.
